(** * dyncon: runtime configuration of a statically exported web front-end

    A shallow embedding of the three programs of the repository that decide
    what configuration a page sees:

    - [docker-entrypoint.sh], the shell script that writes [config.js] from
      the container's environment variables ([Module Entrypoint]);
    - [utils/config.ts], the accessor [getConfig] with its validator and its
      fallback object ([Module Config]);
    - [utils/useConfig.ts], the React hook [useConfig] with its own copies
      of the validator and of the fallback object ([Module UseConfig]).

    JavaScript values live in a store of objects addressed by locations, so
    that "the same object" and "no mutation" are statements about locations
    and about the store. *)

From Stdlib Require Import String Ascii ZArith List.
From stdpp Require Import base gmap strings list.

Local Open Scope string_scope.

(** ** JavaScript values and the object store *)

Definition loc := nat.

(** The values the programs can observe.  Numbers are kept as integers: the
    code only ever asks for their [typeof] and their truthiness. *)
Inductive value :=
| VUndefined
| VNull
| VBool (b : bool)
| VNumber (n : Z)
| VString (s : string)
| VObject (l : loc).

#[global] Instance value_eq_dec : EqDecision value.
Proof. solve_decision. Defined.

(** An object: whether it can be called (then [typeof] says "function"),
    and its own data properties.  The names the programs read ([apiUrl],
    [environment], [features], [enableFeatureX], [__APP_CONFIG__]) exist on
    no built-in prototype, so a property that is not an own property reads
    as [undefined]. *)
Record object := Object { callable : bool; props : gmap string value }.

Inductive level := Log | Warn.

(** One call of [console.log] or [console.warn] with its arguments. *)
Record entry := Entry { severity : level; args : list value }.

Record world := World { heap : gmap loc object; console : list entry }.

(** What the code can ask of its host: the global [window] (absent while
    rendering on the server) and [process.env]. *)
Record realm := Realm { window : option loc; process_env : gmap string string }.

Inductive error := TypeError | ReferenceError.

Inductive completion (A : Type) :=
| Normal (a : A)
| Throw (e : error).
Arguments Normal {A} a.
Arguments Throw {A} e.

(** ** Computations: state passing with exceptions *)

Definition js (A : Type) : Type := world -> completion A * world.

Definition ret {A} (a : A) : js A := fun w => (Normal a, w).

Definition throw {A} (e : error) : js A := fun w => (Throw e, w).

Definition bind {A B} (m : js A) (k : A -> js B) : js B :=
  fun w =>
    match m w with
    | (Normal a, w') => k a w'
    | (Throw e, w') => (Throw e, w')
    end.

#[global] Instance js_ret : MRet js := @ret.
#[global] Instance js_bind : MBind js := fun A B k m => bind m k.

(** ** The operators the sources use *)

(** [typeof v] *)
Definition typeof_in (h : gmap loc object) (v : value) : string :=
  match v with
  | VUndefined => "undefined"
  | VNull => "object"
  | VBool _ => "boolean"
  | VNumber _ => "number"
  | VString _ => "string"
  | VObject l =>
      match h !! l with
      | Some o => if callable o then "function" else "object"
      | None => "object"
      end
  end.

Definition typeof (v : value) : js value :=
  fun w => (Normal (VString (typeof_in (heap w) v)), w).

(** [v.p]: reading a property of [undefined] or [null] is a TypeError; a
    primitive has none of the names read here; an object answers with its
    own property or [undefined]. *)
Definition get_in (h : gmap loc object) (l : loc) (p : string) : value :=
  match h !! l with
  | Some o => default VUndefined (props o !! p)
  | None => VUndefined
  end.

Definition get (v : value) (p : string) : js value :=
  fun w =>
    match v with
    | VUndefined | VNull => (Throw TypeError, w)
    | VObject l => (Normal (get_in (heap w) l p), w)
    | VBool _ | VNumber _ | VString _ => (Normal VUndefined, w)
    end.

(** [a === b] *)
Definition strict_eq (a b : value) : value := VBool (bool_decide (a = b)).

(** ToBoolean *)
Definition truthy (v : value) : bool :=
  match v with
  | VUndefined | VNull => false
  | VBool b => b
  | VNumber n => negb (Z.eqb n 0)
  | VString s => negb (String.eqb s "")
  | VObject _ => true
  end.

(** [a && b] and [a || b]: the right operand is evaluated only when the
    left one does not decide, and the result is an operand, not a boolean. *)
Definition and_ (a b : js value) : js value :=
  x ← a; if truthy x then b else ret x.

Definition or_ (a b : js value) : js value :=
  x ← a; if truthy x then ret x else b.

Infix "&&." := and_ (at level 79, right associativity).
Infix "||." := or_ (at level 84, right associativity).

(** An object literal [{ p1: e1, ..., pn: en }] creates a fresh empty
    object, then evaluates each [ei] in order and defines [pi] on it. *)
Definition new_object : js loc :=
  fun w =>
    let l := fresh (dom (heap w)) in
    (Normal l, World (<[l := Object false ∅]> (heap w)) (console w)).

Definition heap_define (l : loc) (p : string) (v : value)
    (h : gmap loc object) : gmap loc object :=
  alter (fun o => Object (callable o) (<[p := v]> (props o))) l h.

Definition define (l : loc) (p : string) (v : value) : js unit :=
  fun w => (Normal tt, World (heap_define l p v (heap w)) (console w)).

Fixpoint fill (l : loc) (fields : list (string * js value)) : js unit :=
  match fields with
  | [] => ret tt
  | (p, e) :: rest => v ← e; define l p v;; fill l rest
  end.

Definition object_literal (fields : list (string * js value)) : js value :=
  l ← new_object; fill l fields;; ret (VObject l).

Definition console_log (vs : list value) : js unit :=
  fun w => (Normal tt, World (heap w) (console w ++ [Entry Log vs])).

Definition console_warn (vs : list value) : js unit :=
  fun w => (Normal tt, World (heap w) (console w ++ [Entry Warn vs])).

(** [process.env.NAME] *)
Definition env_var (rt : realm) (name : string) : js value :=
  ret (match process_env rt !! name with
       | Some s => VString s
       | None => VUndefined
       end).

(** [typeof window !== 'undefined'] *)
Definition has_window (rt : realm) : bool :=
  match window rt with Some _ => true | None => false end.

(** [(window as any).NAME] where [window] is defined *)
Definition window_get (wl : loc) (name : string) : js value :=
  get (VObject wl) name.

(** ** utils/config.ts *)

Module Config.

(** The module's private constant: the value that the literal at lines
    11-17 produced when the module was loaded. *)
Record module := Module_ { DEFAULT_CONFIG : value }.

Definition DEFAULT_CONFIG_literal : js value :=
  object_literal
    [ ("apiUrl", ret (VString "https://default.example.com"));
      ("environment", ret (VString "default"));
      ("features", object_literal [ ("enableFeatureX", ret (VBool false)) ]) ].

Definition validateConfig (config : value) : js value :=
  (t ← typeof config; ret (strict_eq t (VString "object"))) &&.
  (x ← get config "apiUrl"; t ← typeof x;
   ret (strict_eq t (VString "string"))) &&.
  (x ← get config "environment"; t ← typeof x;
   ret (strict_eq t (VString "string"))) &&.
  (x ← get config "features"; t ← typeof x;
   ret (strict_eq t (VString "object"))) &&.
  (f ← get config "features"; x ← get f "enableFeatureX";
   t ← typeof x; ret (strict_eq t (VString "boolean"))).

Section WithRealm.
Variable rt : realm.

Definition getConfig (m : module) : js value :=
  match window rt with
  | Some wl =>
      (* Client-side: read from injected runtime config *)
      windowConfig ← window_get wl "__APP_CONFIG__";
      c ← (ret windowConfig &&. validateConfig windowConfig);
      if truthy c then
        console_log [VString "Valid runtime config loaded:"; windowConfig];;
        ret windowConfig
      else
        console_warn
          [VString "Invalid or missing runtime config, using fallback"];;
        ret (DEFAULT_CONFIG m)
  | None =>
      (* Server-side: read from environment variables *)
      object_literal
        [ ("apiUrl",
           env_var rt "NEXT_PUBLIC_API_URL" ||. get (DEFAULT_CONFIG m) "apiUrl");
          ("environment",
           env_var rt "NODE_ENV" ||. get (DEFAULT_CONFIG m) "environment");
          ("features",
           object_literal
             [ ("enableFeatureX",
                x ← env_var rt "NEXT_PUBLIC_ENABLE_FEATURE_X";
                ret (strict_eq x (VString "true"))) ]) ]
  end.

(** Loading the module: the constant is created, then lines 56-58 log
    once when a [window] exists. *)
Definition load : js module :=
  d ← DEFAULT_CONFIG_literal;
  (if has_window rt
   then console_log [VString "Config module loaded on client side"]
   else ret tt);;
  ret (Module_ d).

End WithRealm.

End Config.

(** ** utils/useConfig.ts *)

(** The memory React keeps for one mounted caller of [useConfig]: the cell
    of its [useState], and for its [useEffect] the dependency list of the
    previous render with whether the effect still waits for the commit. *)
Record hooks := Hooks {
  state_cell : option value;
  effect_deps : option (list value);
  effect_pending : bool
}.

Definition unmounted : hooks := Hooks None None false.

(** [useState(init)]: the first render stores [init]; every render reads
    the cell. *)
Definition useState (init : value) (k : hooks) : value * hooks :=
  match state_cell k with
  | Some v => (v, k)
  | None => (init, Hooks (Some init) (effect_deps k) (effect_pending k))
  end.

(** [useEffect(f, deps)]: the effect is scheduled by the first render and
    by a render whose dependencies differ from the previous ones. *)
Definition useEffect (deps : list value) (k : hooks) : hooks :=
  match effect_deps k with
  | Some old =>
      if decide (old = deps) then k
      else Hooks (state_cell k) (Some deps) true
  | None => Hooks (state_cell k) (Some deps) true
  end.

(** The setter returned by [useState]: it stores the value for the renders
    to come. *)
Definition set_state (v : value) (k : hooks) : hooks :=
  Hooks (Some v) (effect_deps k) (effect_pending k).

Module UseConfig.

Record module := Module_ { DEFAULT_CONFIG : value }.

Definition DEFAULT_CONFIG_literal : js value :=
  object_literal
    [ ("apiUrl", ret (VString "https://default.example.com"));
      ("environment", ret (VString "default"));
      ("features", object_literal [ ("enableFeatureX", ret (VBool false)) ]) ].

Definition validateConfig (config : value) : js value :=
  (t ← typeof config; ret (strict_eq t (VString "object"))) &&.
  (x ← get config "apiUrl"; t ← typeof x;
   ret (strict_eq t (VString "string"))) &&.
  (x ← get config "environment"; t ← typeof x;
   ret (strict_eq t (VString "string"))) &&.
  (x ← get config "features"; t ← typeof x;
   ret (strict_eq t (VString "object"))) &&.
  (f ← get config "features"; x ← get f "enableFeatureX";
   t ← typeof x; ret (strict_eq t (VString "boolean"))).

Definition load : js module :=
  d ← DEFAULT_CONFIG_literal; ret (Module_ d).

Section WithRealm.
Variable rt : realm.

(** The [return] inside the [if] leaves the function; otherwise control
    falls through to the last line. *)
Definition getClientConfig (m : module) : js value :=
  returned ←
    match window rt with
    | Some wl =>
        windowConfig ← window_get wl "__APP_CONFIG__";
        c ← (ret windowConfig &&. validateConfig windowConfig);
        if truthy c then
          console_log [VString "Valid runtime config loaded:"; windowConfig];;
          ret (Some windowConfig)
        else
          console_warn
            [VString "Invalid or missing runtime config, using fallback"];;
          ret None
    | None => ret None
    end;
  match returned with
  | Some v => ret v
  | None => ret (DEFAULT_CONFIG m)
  end.

(** The body of [useConfig], run at every render. *)
Definition useConfig (m : module) (k : hooks) : value * hooks :=
  let '(config, k) := useState (DEFAULT_CONFIG m) k in
  let k := useEffect [] k in
  (config, k).

(** [const [config, setConfig] = useState(...)] *)
Definition setConfig : value → hooks → hooks := set_state.

(** The callback given to [useEffect]. *)
Definition effect (m : module) (k : hooks) : js hooks :=
  clientConfig ← getClientConfig m;
  let k := setConfig clientConfig k in
  console_log
    [VString "useConfig: Client-side config updated after hydration:";
     clientConfig];;
  ret k.

(** After a render is committed, React runs the effect if one waits. *)
Definition commit (m : module) (k : hooks) : js hooks :=
  if effect_pending k
  then effect m (Hooks (state_cell k) (effect_deps k) false)
  else ret k.

(** One page session.  [Render] calls the hook, [Commit] flushes its
    effect, [Interfere] is any other script rewriting the store (the
    global binding included).  An effect that throws takes the
    component down. *)
Inductive event :=
| Render
| Commit
| Interfere (h : gmap loc object).

Inductive instance :=
| Live (k : hooks)
| Crashed.

Definition step (m : module) (ev : event) (s : instance * world)
    : instance * world * option value :=
  match s, ev with
  | (i, w), Interfere h => (i, World h (console w), None)
  | (Live k, w), Render =>
      let '(v, k') := useConfig m k in (Live k', w, Some v)
  | (Live k, w), Commit =>
      match commit m k w with
      | (Normal k', w') => (Live k', w', None)
      | (Throw _, w') => (Crashed, w', None)
      end
  | (Crashed, w), _ => (Crashed, w, None)
  end.

(** The values the hook returned over a sequence of events, and the
    state the session is left in. *)
Fixpoint session (m : module) (evs : list event) (s : instance * world)
    : list value * (instance * world) :=
  match evs with
  | [] => ([], s)
  | ev :: rest =>
      let '(s', r) := step m ev s in
      let '(vs, final) := session m rest s' in
      (match r with Some v => v :: vs | None => vs end, final)
  end.

End WithRealm.

End UseConfig.

(** ** docker-entrypoint.sh *)

Module Entrypoint.

(** [${name:-word}]: the variable's value, or [word] when the variable is
    unset or empty. *)
Definition expand (env : gmap string string) (name word : string) : string :=
  match env !! name with
  | Some v => if String.eqb v "" then word else v
  | None => word
  end.

(** The here-document of lines 6-15, as the shell expands it. *)
Definition config_js (env : gmap string string) : string :=
  "window.__APP_CONFIG__ = {
  apiUrl: '" +:+ expand env "API_URL" "https://default.example.com" +:+ "',
  environment: '" +:+ expand env "ENVIRONMENT" "production" +:+ "',
  features: {
    enableFeatureX: " +:+ expand env "ENABLE_FEATURE_X" "false" +:+ "
  }
};
console.log('Runtime config loaded:', window.__APP_CONFIG__);
".

(** What the script prints. *)
Definition stdout (env : gmap string string) : list string :=
  [ "Generating runtime configuration...";
    "Configuration generated successfully!";
    "API_URL: " +:+ expand env "API_URL" "https://default.example.com";
    "ENVIRONMENT: " +:+ expand env "ENVIRONMENT" "production";
    "ENABLE_FEATURE_X: " +:+ expand env "ENABLE_FEATURE_X" "false" ].

(** The text that stands as the value of [enableFeatureX] in the file. *)
Definition emitted_flag (env : gmap string string) : string :=
  expand env "ENABLE_FEATURE_X" "false".

End Entrypoint.

(** ** Running the generated file in the browser

    The browser runs [config.js] as a classic script.  The fragment of
    JavaScript modelled here covers what the here-document can produce for
    ordinary variable values: a sequence of expression statements ended by
    [;], built from single-quoted strings without escapes, decimal integers,
    identifiers, member access, object literals with identifier keys,
    assignment to a member, and calls of [console.log].  [parse] answers
    [None] for any text outside that fragment, about which the model says
    nothing. *)

Module Script.

Inductive token :=
| TIdent (x : string)
| TString (s : string)
| TNumber (n : Z)
| TPunct (c : ascii).

(** What the scanner is in the middle of. *)
Inductive mode :=
| Code
| InIdent (acc : string)
| InNumber (acc : Z)
| InString (acc : string).

Definition LF : ascii := "010"%char.
Definition CR : ascii := "013"%char.
Definition TAB : ascii := "009"%char.

Definition between (lo hi : N) (c : ascii) : bool :=
  let n := N_of_ascii c in (lo <=? n)%N && (n <=? hi)%N.

Definition is_space (c : ascii) : bool :=
  Ascii.eqb c " " || Ascii.eqb c LF || Ascii.eqb c CR || Ascii.eqb c TAB.

Definition is_digit (c : ascii) : bool := between 48 57 c.

Definition is_ident_start (c : ascii) : bool :=
  between 65 90 c || between 97 122 c || Ascii.eqb c "_" || Ascii.eqb c "$".

Definition is_ident_part (c : ascii) : bool :=
  is_ident_start c || is_digit c.

Definition is_punct (c : ascii) : bool :=
  existsb (Ascii.eqb c) [ "."; "="; "{"; "}"; ":"; ","; "("; ")"; ";" ]%char.

Definition digit (c : ascii) : Z := Z.of_N (N_of_ascii c) - 48.

Definition snoc (s : string) (c : ascii) : string := s +:+ String c "".

(** The scanner meets [c] between two tokens. *)
Definition start (c : ascii) : option (list token * mode) :=
  if is_space c then Some ([], Code)
  else if is_punct c then Some ([TPunct c], Code)
  else if Ascii.eqb c "'" then Some ([], InString "")
  else if is_ident_start c then Some ([], InIdent (String c ""))
  else if is_digit c then Some ([], InNumber (digit c))
  else None.

(** One character: the tokens it completes and the mode it leaves. *)
Definition advance (m : mode) (c : ascii) : option (list token * mode) :=
  match m with
  | Code => start c
  | InIdent acc =>
      if is_ident_part c then Some ([], InIdent (snoc acc c))
      else '(ts, m1) ← start c; Some (TIdent acc :: ts, m1)
  | InNumber acc =>
      if is_digit c then Some ([], InNumber (10 * acc + digit c))
      else if is_ident_start c then None
      else '(ts, m1) ← start c; Some (TNumber acc :: ts, m1)
  | InString acc =>
      if Ascii.eqb c "'" then Some ([TString acc], Code)
      else if Ascii.eqb c "\" || Ascii.eqb c LF || Ascii.eqb c CR then None
      else Some ([], InString (snoc acc c))
  end.

Fixpoint scan (m : mode) (s : string) : option (list token * mode) :=
  match s with
  | EmptyString => Some ([], m)
  | String c rest =>
      '(ts, m1) ← advance m c;
      '(ts', m2) ← scan m1 rest;
      Some ((ts ++ ts')%list, m2)
  end.

(** The end of the text closes an identifier or a number; a string must
    have been closed. *)
Definition finish (m : mode) : option (list token) :=
  match m with
  | Code => Some []
  | InIdent acc => Some [TIdent acc]
  | InNumber acc => Some [TNumber acc]
  | InString _ => None
  end.

Definition lex (s : string) : option (list token) :=
  '(ts, m) ← scan Code s; ts' ← finish m; Some ((ts ++ ts')%list).

#[local] Unset Elimination Schemes.
Inductive expr :=
| ENull
| EBool (b : bool)
| ENumber (n : Z)
| EString (s : string)
| EGlobal (x : string)
| EMember (e : expr) (p : string)
| EObject (fields : list (string * expr))
| EAssign (target : expr) (p : string) (e : expr)
| ELog (args : list expr).
#[local] Set Elimination Schemes.

(** An identifier, with the literal meaning of the reserved words. *)
Definition head (x : string) : option expr :=
  if String.eqb x "true" then Some (EBool true)
  else if String.eqb x "false" then Some (EBool false)
  else if String.eqb x "null" then Some ENull
  else if String.eqb x "console" then None
  else Some (EGlobal x).

(** The tokens that follow the punctuator [c], if [c] comes next. *)
Definition punct (c : ascii) (ts : list token) : option (list token) :=
  match ts with
  | TPunct c' :: rest => if Ascii.eqb c c' then Some rest else None
  | _ => None
  end.

(** The member accesses [.p.q...] that follow an expression. *)
Fixpoint members (e : expr) (ts : list token) : expr * list token :=
  match ts with
  | TPunct c :: TIdent p :: rest =>
      if Ascii.eqb c "." then members (EMember e p) rest else (e, ts)
  | _ => (e, ts)
  end.

(** [.log(] after [console] *)
Definition log_call (ts : list token) : option (list token) :=
  match punct "." ts with
  | Some (TIdent p :: rest) =>
      if String.eqb p "log" then punct "(" rest else None
  | _ => None
  end.

Fixpoint parse_expr (fuel : nat) (ts : list token)
    : option (expr * list token) :=
  match fuel with
  | O => None
  | S fuel =>
      match ts with
      | TString s :: rest => Some (EString s, rest)
      | TNumber n :: rest => Some (ENumber n, rest)
      | TPunct c :: rest =>
          if Ascii.eqb c "{" then
            '(fs, rest1) ← parse_fields fuel rest; Some (EObject fs, rest1)
          else None
      | TIdent x :: rest =>
          if String.eqb x "console" then
            rest1 ← log_call rest;
            '(es, rest2) ← parse_args fuel rest1; Some (ELog es, rest2)
          else
            e ← head x;
            let '(e1, rest1) := members e rest in
            match punct "=" rest1 with
            | Some rest2 =>
                match e1 with
                | EMember target p =>
                    '(rhs, rest3) ← parse_expr fuel rest2;
                    Some (EAssign target p rhs, rest3)
                | _ => None
                end
            | None =>
                match punct "(" rest1 with
                | Some _ => None
                | None => Some (e1, rest1)
                end
            end
      | [] => None
      end
  end
with parse_fields (fuel : nat) (ts : list token)
    : option (list (string * expr) * list token) :=
  match fuel with
  | O => None
  | S fuel =>
      match ts with
      | TPunct c :: rest => if Ascii.eqb c "}" then Some ([], rest) else None
      | TIdent k :: rest =>
          rest0 ← punct ":" rest;
          '(e, rest1) ← parse_expr fuel rest0;
          match rest1 with
          | TPunct c :: rest2 =>
              if Ascii.eqb c "," then
                '(fs, rest3) ← parse_fields fuel rest2;
                Some ((k, e) :: fs, rest3)
              else if Ascii.eqb c "}" then Some ([(k, e)], rest2)
              else None
          | _ => None
          end
      | _ => None
      end
  end
with parse_args (fuel : nat) (ts : list token)
    : option (list expr * list token) :=
  match fuel with
  | O => None
  | S fuel =>
      match punct ")" ts with
      | Some rest => Some ([], rest)
      | None =>
          '(e, rest1) ← parse_expr fuel ts;
          match rest1 with
          | TPunct c :: rest2 =>
              if Ascii.eqb c "," then
                '(es, rest3) ← parse_args fuel rest2;
                match es with
                | [] => None
                | _ => Some (e :: es, rest3)
                end
              else if Ascii.eqb c ")" then Some ([e], rest2)
              else None
          | _ => None
          end
      end
  end.

(** Statements: an expression that does not open with a punctuator (a
    brace there would open a block), then [;]. *)
Fixpoint parse_statements (fuel : nat) (ts : list token)
    : option (list expr) :=
  match fuel with
  | O => None
  | S fuel =>
      match ts with
      | [] => Some []
      | TPunct _ :: _ => None
      | _ =>
          '(e, rest) ← parse_expr (length ts) ts;
          rest1 ← punct ";" rest;
          es ← parse_statements fuel rest1; Some (e :: es)
      end
  end.

Definition parse (s : string) : option (list expr) :=
  ts ← lex s; parse_statements (S (length ts)) ts.

(** An identifier names a property of the global object; in a browser
    that object is [window], which also names itself. *)
Definition resolve (wl : loc) (x : string) : js value :=
  fun w =>
    if String.eqb x "window" then (Normal (VObject wl), w)
    else if String.eqb x "undefined" then (Normal VUndefined, w)
    else
      match heap w !! wl ≫= fun o => props o !! x with
      | Some v => (Normal v, w)
      | None => (Throw ReferenceError, w)
      end.

(** [base.p = v] outside strict mode. *)
Definition put (base : value) (p : string) (v : value) : js unit :=
  match base with
  | VUndefined | VNull => throw TypeError
  | VObject l => define l p v
  | VBool _ | VNumber _ | VString _ => ret tt
  end.

Fixpoint sequence (cs : list (js value)) : js (list value) :=
  match cs with
  | [] => ret []
  | c :: rest => v ← c; vs ← sequence rest; ret (v :: vs)
  end.

Fixpoint eval (wl : loc) (e : expr) : js value :=
  match e with
  | ENull => ret VNull
  | EBool b => ret (VBool b)
  | ENumber n => ret (VNumber n)
  | EString s => ret (VString s)
  | EGlobal x => resolve wl x
  | EMember e p => v ← eval wl e; get v p
  | EObject fields =>
      object_literal (map (fun kv => (kv.1, eval wl kv.2)) fields)
  | EAssign target p e =>
      base ← eval wl target; v ← eval wl e; put base p v;; ret v
  | ELog es =>
      vs ← sequence (map (eval wl) es); console_log vs;; ret VUndefined
  end.

(** The statements run in order; the first exception ends the script. *)
Fixpoint run (wl : loc) (prog : list expr) : js unit :=
  match prog with
  | [] => ret tt
  | e :: rest => eval wl e;; run wl rest
  end.

(** Text that a single-quoted literal reproduces character for
    character: no quote, no backslash, no line break. *)
Fixpoint plain (s : string) : bool :=
  match s with
  | EmptyString => true
  | String c rest =>
      negb (Ascii.eqb c "'" || Ascii.eqb c "\" || Ascii.eqb c LF || Ascii.eqb c CR)
      && plain rest
  end.

End Script.

(** ** Reading the store *)

(** The value bound to [window.__APP_CONFIG__], if the property exists. *)
Definition binding (w : world) (wl : loc) : option value :=
  o ← heap w !! wl; props o !! "__APP_CONFIG__".

(** What [v.p] reads when [v] is not [undefined] or [null]. *)
Definition field (h : gmap loc object) (v : value) (p : string) : value :=
  match v with
  | VObject l => get_in h l p
  | _ => VUndefined
  end.

(** The entries a computation added to the console. *)
Definition emitted {A} (c : js A) (w : world) : list entry :=
  drop (length (console w)) (console (snd (c w))).

Definition fallback_warning : entry :=
  Entry Warn [VString "Invalid or missing runtime config, using fallback"].

Definition loaded_notice (v : value) : entry :=
  Entry Log [VString "Valid runtime config loaded:"; v].

Definition say (e : entry) (w : world) : world :=
  World (heap w) (console w ++ [e]).

(** Both accessors read the binding, run the guard, and either hand the
    binding on or fall back to their module's constant. *)
Definition after_guard (v fallback : value) (r : completion value * world)
    : completion value * world :=
  match r with
  | (Normal c, w) =>
      if truthy c then (Normal v, say (loaded_notice v) w)
      else (Normal fallback, say fallback_warning w)
  | (Throw e, w) => (Throw e, w)
  end.

(** Some of the bindings the validator turns down: a checked field does
    not have the [typeof] asked of it.  The first case, a missing
    [features], is an instance of the fourth.  This is not every binding
    that is not [well_shaped]: a [features] that is [null] has the [typeof]
    "object" (there the validator throws), and a function carrying
    well-typed fields is turned down by the test on the binding itself. *)
Definition ill_typed (h : gmap loc object) (v : value) : Prop :=
  field h v "features" = VUndefined
  ∨ typeof_in h (field h v "apiUrl") ≠ "string"
  ∨ typeof_in h (field h v "environment") ≠ "string"
  ∨ typeof_in h (field h v "features") ≠ "object"
  ∨ ∃ lf, field h v "features" = VObject lf
          ∧ typeof_in h (get_in h lf "enableFeatureX") ≠ "boolean".

(** A binding of the validated shape: a plain object whose [apiUrl] and
    [environment] are strings and whose [features] is a plain object with a
    boolean [enableFeatureX].  Nothing is said of its other properties. *)
Definition well_shaped (h : gmap loc object) (v : value) : Prop :=
  ∃ l o lf f a e b,
    v = VObject l ∧ h !! l = Some o ∧ callable o = false
    ∧ props o !! "apiUrl" = Some (VString a)
    ∧ props o !! "environment" = Some (VString e)
    ∧ props o !! "features" = Some (VObject lf)
    ∧ h !! lf = Some f ∧ callable f = false
    ∧ props f !! "enableFeatureX" = Some (VBool b).

(** [e] evaluates to [v], without effect, in every world that extends [h]. *)
Definition yields (e : js value) (v : value) (h : gmap loc object) : Prop :=
  ∀ w, h ⊆ heap w → e w = (Normal v, w).

Definition config_fields (a e f : value) : gmap string value :=
  {[ "apiUrl" := a; "environment" := e; "features" := f ]}.

Definition features_fields (b : value) : gmap string value :=
  {[ "enableFeatureX" := b ]}.

(** [v] is an object with exactly the fields of the fallback literal. *)
Definition is_default (h : gmap loc object) (v : value) : Prop :=
  ∃ d df,
    v = VObject d ∧ d ≠ df
    ∧ h !! d = Some (Object false
                       (config_fields (VString "https://default.example.com")
                                      (VString "default") (VObject df)))
    ∧ h !! df = Some (Object false (features_fields (VBool false))).

(** The hook's memory after the first render, and once the effect ran. *)
Definition waiting (d : value) : hooks := Hooks (Some d) (Some []) true.
Definition hydrated (v : value) : hooks := Hooks (Some v) (Some []) false.

Definition hydration_notice (v : value) : entry :=
  Entry Log
    [VString "useConfig: Client-side config updated after hydration:"; v].

(** A variable's text, or the fallback when the variable is unset or
    empty. *)
Definition or_else (var : option string) (fallback : string) : string :=
  match var with
  | Some s => if String.eqb s "" then fallback else s
  | None => fallback
  end.

(** The variable sets for which the generated file is meant: the two texts
    fit between single quotes as they are, and the flag is unset or
    [true]. *)
Definition plain_or_unset (var : option string) : bool :=
  match var with
  | Some s => Script.plain s
  | None => true
  end.

Definition well_formed (env : gmap string string) : bool :=
  plain_or_unset (env !! "API_URL")
  && plain_or_unset (env !! "ENVIRONMENT")
  && (bool_decide (env !! "ENABLE_FEATURE_X" = None)
      || bool_decide (env !! "ENABLE_FEATURE_X" = Some "true")).

(** What the generated file is, as a program, when the three expansions
    are [a], [e] and the boolean [b]. *)
Definition generated_program (a e : string) (b : bool) : list Script.expr :=
  [ Script.EAssign (Script.EGlobal "window") "__APP_CONFIG__"
      (Script.EObject
         [ ("apiUrl", Script.EString a);
           ("environment", Script.EString e);
           ("features", Script.EObject [ ("enableFeatureX", Script.EBool b) ]) ]);
    Script.ELog
      [ Script.EString "Runtime config loaded:";
        Script.EMember (Script.EGlobal "window") "__APP_CONFIG__" ] ].

Definition runtime_notice (v : value) : entry :=
  Entry Log [VString "Runtime config loaded:"; v].

(** ** Sample pages and containers *)

Module Sample.

(** A browser whose [window] is object 0. *)
Definition browser : realm := Realm (Some 0) ∅.

Definition page (objects : gmap loc object) : world := World objects [].

(** No [config.js] was loaded. *)
Definition bare : world := page {[ 0 := Object false ∅ ]}.

Definition bound (fields : gmap string value) (rest : gmap loc object)
    : world :=
  page (<[0 := Object false {[ "__APP_CONFIG__" := VObject 1 ]}]>
          (<[1 := Object false fields]> rest)).

(** [{apiUrl: "https://x", environment: "y"}] *)
Definition without_features : world :=
  bound {[ "apiUrl" := VString "https://x"; "environment" := VString "y" ]} ∅.

(** [{apiUrl: 42, environment: "y", features: {enableFeatureX: true}}] *)
Definition numeric_url : world :=
  bound {[ "apiUrl" := VNumber 42; "environment" := VString "y";
           "features" := VObject 2 ]}
        {[ 2 := Object false {[ "enableFeatureX" := VBool true ]} ]}.

(** [{apiUrl: "https://x", environment: "y", features: null}] *)
Definition null_features : world :=
  bound {[ "apiUrl" := VString "https://x"; "environment" := VString "y";
           "features" := VNull ]} ∅.

(** [{apiUrl: "https://x", environment: "y", features: {enableFeatureX:
    true, beta: 1}, region: "eu"}] *)
Definition with_extras : world :=
  bound {[ "apiUrl" := VString "https://x"; "environment" := VString "y";
           "features" := VObject 2; "region" := VString "eu" ]}
        {[ 2 := Object false {[ "enableFeatureX" := VBool true;
                                "beta" := VNumber 1 ]} ]}.

(** The fallback objects of the two modules, where a page that loaded
    them might hold them. *)
Definition config_module : Config.module := Config.Module_ (VObject 7).
Definition hook_module : UseConfig.module := UseConfig.Module_ (VObject 9).

Definition no_variables : gmap string string := ∅.

Definition dev_variables : gmap string string :=
  {[ "API_URL" := "https://dev.example.com";
     "ENVIRONMENT" := "development";
     "ENABLE_FEATURE_X" := "true" ]}.

Definition flag_yes : gmap string string := {[ "ENABLE_FEATURE_X" := "yes" ]}.
Definition flag_one : gmap string string := {[ "ENABLE_FEATURE_X" := "1" ]}.

(** A server: no [window]; a world that holds the loaded fallback. *)
Definition server (vars : gmap string string) : realm := Realm None vars.

Definition loaded : world :=
  page {[ 7 := Object false
                 (config_fields (VString "https://default.example.com")
                                (VString "default") (VObject 8));
          8 := Object false (features_fields (VBool false)) ]}.

End Sample.

(** ** components/ConfigDisplay.tsx *)

(** [a?.p]: [undefined] when [a] is [undefined] or [null], [a.p]
    otherwise. *)
Definition get_optional (v : value) (p : string) : js value :=
  match v with
  | VUndefined | VNull => ret VUndefined
  | _ => get v p
  end.

Module ConfigDisplay.

(** What the component hands to React: the values of the JSX expressions
  of the three lines that are always rendered and, under
  [isClient && ...], of the dump and of the note. *)
Record view := View {
api_url : value;
environment : value;
feature_x : value;
details : option (value * value)
}.

(** The component's memory: the hooks of [useConfig], then its own
  [useState(false)] with its own [useEffect]. *)
Record memory := Memory { config_memory : hooks; client_memory : hooks }.

Definition mounting : memory := Memory unmounted unmounted.

Definition default_note : value :=
VString "Using default configuration (runtime config not loaded)".

Definition runtime_note : value :=
VString "Configuration loaded at runtime from environment variables".

Section WithHost.
(** [JSON.stringify(config, null, 2)], which the host provides. *)
Variable stringify : value → js value.

(** The body of the component, run at every render. *)
Definition ConfigDisplay (m : UseConfig.module) (k : memory) : js (view * memory) :=
let '(config, kc) := UseConfig.useConfig m (config_memory k) in
let '(isClient, ki) := useState (VBool false) (client_memory k) in
let ki := useEffect [] ki in
apiUrl ← get config "apiUrl";
environment ← get config "environment";
features ← get config "features";
flag ← get_optional features "enableFeatureX";
let feature := if truthy flag then VString "Yes" else VString "No" in
details ←
(if truthy isClient then
   dump ← stringify config;
   a ← get config "apiUrl";
   let note :=
     if truthy (strict_eq a (VString "https://default.example.com"))
     then default_note else runtime_note in
   ret (Some (dump, note))
 else ret None);
ret (View apiUrl environment feature details, Memory kc ki).

(** [const [isClient, setIsClient] = useState(false)] *)
Definition setIsClient : value → hooks → hooks := set_state.

(** After a render is committed the waiting effects run in the order of
their hooks: the one of [useConfig], then [setIsClient(true)]. *)
Definition commit (rt : realm) (m : UseConfig.module) (k : memory) : js memory :=
kc ← UseConfig.commit rt m (config_memory k);
let ki := client_memory k in
let ki :=
if effect_pending ki
then setIsClient (VBool true) (Hooks (state_cell ki) (effect_deps ki) false)
else ki in
ret (Memory kc ki).

End WithHost.

End ConfigDisplay.

(** ** The container's start

    The entrypoint as [/bin/sh] runs it.  The script does not set
    [errexit], so a command that fails leaves its status behind and the
    next command runs.  A redirection that cannot open its file fails the
    command without running it.  [exec] without arguments does nothing;
    with arguments it replaces the shell by the program named, and when
    that program cannot be started the shell exits with the status of the
    failure (127 when the program is not found, 126 when it cannot be
    executed).  What goes to the standard error stream is not kept. *)

Module Container.

Inductive command :=
| Echo (text : string)
| CatHere (path text : string)
| Exec (argv : list string).

(** The files, the paths that cannot be opened for writing, the programs
  that cannot be started (each with the status [exec] then fails with),
  and what was printed. *)
Record machine := Machine {
files : gmap string string;
locked : gset string;
refused : gmap string nat;
printed : list string
}.

Inductive state :=
| Running (status : nat) (mc : machine)
| Replaced (argv : list string) (mc : machine)
| Exited (status : nat) (mc : machine).

Definition step (c : command) (mc : machine) : state :=
match c with
| Echo text =>
    Running 0 (Machine (files mc) (locked mc) (refused mc)
                       (printed mc ++ [text]))
| CatHere path text =>
    if decide (path ∈ locked mc) then Running 1 mc
    else Running 0 (Machine (<[path := text]> (files mc)) (locked mc)
                            (refused mc) (printed mc))
| Exec argv =>
    match argv with
    | [] => Running 0 mc
    | program :: _ =>
        match refused mc !! program with
        | None => Replaced argv mc
        | Some status => Exited status mc
        end
    end
end.

Fixpoint sh (script : list command) (status : nat) (mc : machine) : state :=
match script with
| [] => Running status mc
| c :: rest =>
    match step c mc with
    | Running status' mc' => sh rest status' mc'
    | Replaced argv mc' => Replaced argv mc'
    | Exited status' mc' => Exited status' mc'
    end
end.

Definition config_path : string := "/usr/share/nginx/html/config.js".

(** docker-entrypoint.sh, with ["$@"] standing for [argv]. *)
Definition entrypoint (env : gmap string string) (argv : list string)
  : list command :=
[ Echo "Generating runtime configuration...";
  CatHere config_path (Entrypoint.config_js env);
  Echo "Configuration generated successfully!";
  Echo ("API_URL: " +:+ Entrypoint.expand env "API_URL" "https://default.example.com");
  Echo ("ENVIRONMENT: " +:+ Entrypoint.expand env "ENVIRONMENT" "production");
  Echo ("ENABLE_FEATURE_X: " +:+ Entrypoint.expand env "ENABLE_FEATURE_X" "false");
  Exec argv ].

Definition start (env : gmap string string) (argv : list string)
  (mc : machine) : state :=
sh (entrypoint env argv) 0 mc.

Definition machine_of (s : state) : machine :=
match s with
| Running _ mc => mc
| Replaced _ mc => mc
| Exited _ mc => mc
end.

(** The five lines the script prints. *)
Definition summary (env : gmap string string) : list string :=
[ "Generating runtime configuration...";
  "Configuration generated successfully!";
  "API_URL: " +:+ Entrypoint.expand env "API_URL" "https://default.example.com";
  "ENVIRONMENT: " +:+ Entrypoint.expand env "ENVIRONMENT" "production";
  "ENABLE_FEATURE_X: " +:+ Entrypoint.expand env "ENABLE_FEATURE_X" "false" ].

End Container.

(** ** The hook under StrictMode

    In a development build, React's StrictMode runs the effects of a
    component that has just mounted a second time, after their clean-up
    (this effect returns none), before anything else happens.  A
    production build, and a tree without StrictMode, runs them once, as
    [UseConfig.commit] does. *)

Module Strict.

Definition commit (rt : realm) (m : UseConfig.module) (k : hooks) : js hooks :=
if effect_pending k
then
  k1 ← UseConfig.effect rt m (Hooks (state_cell k) (effect_deps k) false);
  UseConfig.effect rt m k1
else ret k.

Definition step (strict : bool) (rt : realm) (m : UseConfig.module)
  (ev : UseConfig.event) (s : UseConfig.instance * world)
  : UseConfig.instance * world * option value :=
match s, ev with
| (UseConfig.Live k, w), UseConfig.Commit =>
    match (if strict then commit rt m k else UseConfig.commit rt m k) w with
    | (Normal k', w') => (UseConfig.Live k', w', None)
    | (Throw _, w') => (UseConfig.Crashed, w', None)
    end
| _, _ => UseConfig.step rt m ev s
end.

Fixpoint session (strict : bool) (rt : realm) (m : UseConfig.module)
  (evs : list UseConfig.event) (s : UseConfig.instance * world)
  : list value * (UseConfig.instance * world) :=
match evs with
| [] => ([], s)
| ev :: rest =>
    let '(s', r) := step strict rt m ev s in
    let '(vs, final) := session strict rt m rest s' in
    (match r with Some v => v :: vs | None => vs end, final)
end.

(** A hook with no effect waiting, or a component that is gone. *)
Definition settled (i : UseConfig.instance) : Prop :=
match i with
| UseConfig.Live k => effect_pending k = false ∧ effect_deps k = Some []
| UseConfig.Crashed => True
end.

(** The console entries one mount can add: the accessor's diagnostic and
  the hydration notice, for each run of the effect. *)
Definition entries_per_mount (strict : bool) : nat := if strict then 4 else 2.

End Strict.

(** ** Shapes and traces used in the statements below *)

(** The one shape on which the validator throws after its guard: a plain
    object that passes the tests on [apiUrl] and [environment] and whose
    [features] is [null]. *)
Definition null_featured (h : gmap loc object) (v : value) : Prop :=
  ∃ l, v = VObject l
       ∧ typeof_in h v = "object"
       ∧ typeof_in h (get_in h l "apiUrl") = "string"
       ∧ typeof_in h (get_in h l "environment") = "string"
       ∧ get_in h l "features" = VNull.

(** Some number of [d], then only [v]. *)
Definition default_then (d v : value) (vs : list value) : Prop :=
  ∃ n rest, vs = (replicate n d ++ rest)%list ∧ Forall (eq v) rest.

(** More samples. *)
Module Sample2.

(** A page that loaded [useConfig.ts] (its fallback at 9 and 10) and then
  [config.js] made from the variables of [Sample.dev_variables]. *)
Definition hook_fallback : gmap loc object :=
{[ 9 := Object false
          (config_fields (VString "https://default.example.com")
                         (VString "default") (VObject 10));
   10 := Object false (features_fields (VBool false)) ]}.

Definition fresh_page : world :=
Sample.page (<[0 := Object false ∅]> hook_fallback).

Definition dev_page : world :=
Sample.page
  (<[0 := Object false {[ "__APP_CONFIG__" := VObject 1 ]}]>
     (<[1 := Object false
               (config_fields (VString "https://dev.example.com")
                              (VString "development") (VObject 2))]>
        (<[2 := Object false (features_fields (VBool true))]> hook_fallback))).

(** A stand-in for [JSON.stringify]. *)
Definition stringify : value → js value := fun _ => ret (VString "{...}").

Definition unwritable : Container.machine :=
Container.Machine {[ Container.config_path := "stale" ]}
                  {[ Container.config_path ]} ∅ [].

Definition writable : Container.machine :=
Container.Machine {[ Container.config_path := "stale" ]} ∅ ∅ [].

(** An image in which [nginx] is not installed. *)
Definition without_nginx : Container.machine :=
Container.Machine {[ Container.config_path := "stale" ]} ∅
                  {[ "nginx" := 127 ]} [].

(** [{apiUrl: "https://api.example.com", environment: "staging",
  features: null}] *)
Definition null_mapping : world :=
Sample.bound {[ "apiUrl" := VString "https://api.example.com";
                "environment" := VString "staging";
                "features" := VNull ]} ∅.

(** A function carrying the fields of a configuration:
  [Object.assign(function () {}, {apiUrl: "https://x", environment: "y",
  features: {enableFeatureX: true}})] *)
Definition callable_binding : world :=
Sample.page
  (<[0 := Object false {[ "__APP_CONFIG__" := VObject 1 ]}]>
     (<[1 := Object true
               (config_fields (VString "https://x") (VString "y") (VObject 2))]>
        {[ 2 := Object false (features_fields (VBool true)) ]})).

(** A stand-in for [JSON.stringify] on a value it cannot serialise. *)
Definition stringify_cyclic : value → js value := fun _ => throw TypeError.

Definition nginx : list string := [ "nginx"; "-g"; "daemon off;" ].

End Sample2.

(** ** Stepping through the monad *)

Ltac js_step :=
  cbv beta iota zeta delta
    [mbind js_bind bind mret js_ret ret throw and_ or_ typeof get window_get
     console_log console_warn env_var] in *;
  cbn [fst snd heap console] in *.

Lemma truthy_strict_eq_string (a b : string) :
  truthy (strict_eq (VString a) (VString b)) = bool_decide (a = b).
Proof.
  unfold strict_eq; cbn. apply bool_decide_ext. split; congruence.
Qed.

Lemma strict_eq_string_false (a b : string) :
  a ≠ b → strict_eq (VString a) (VString b) = VBool false.
Proof.
  intros H. unfold strict_eq. f_equal. apply bool_decide_eq_false. congruence.
Qed.

(** Decide the next [typeof ... === '...'] test of a chain of [&&]; the
    branch where it fails is closed. *)
Ltac next_check :=
  rewrite truthy_strict_eq_string; case_bool_decide;
  [| rewrite strict_eq_string_false by assumption; reflexivity ].

(** The next test of the chain holds by computation. *)
Ltac pass_check :=
  rewrite truthy_strict_eq_string, bool_decide_eq_true_2 by reflexivity;
  cbv beta iota.

Lemma binding_get w wl :
  get_in (heap w) wl "__APP_CONFIG__" = default VUndefined (binding w wl).
Proof.
  unfold get_in, binding. destruct (heap w !! wl) as [o|]; reflexivity.
Qed.

(** ** The validator *)

Lemma validateConfig_same v : UseConfig.validateConfig v = Config.validateConfig v.
Proof. reflexivity. Qed.

Lemma validateConfig_ill_typed v w :
  v ≠ VNull → ill_typed (heap w) v →
  Config.validateConfig v w = (Normal (VBool false), w).
Proof.
  intros Hnull Hill. unfold Config.validateConfig. js_step.
  destruct v; try reflexivity; try congruence.
  unfold ill_typed, field in Hill.
  do 4 next_check.
  destruct Hill as [Hf | [Ha | [He | [Hf | (lf & Hf & Hb)]]]];
    try congruence.
  - rewrite Hf in *. discriminate.
  - rewrite Hf. rewrite strict_eq_string_false by assumption. reflexivity.
Qed.

Lemma validateConfig_well_shaped v w :
  well_shaped (heap w) v →
  Config.validateConfig v w = (Normal (VBool true), w).
Proof.
  intros (l & o & lf & f & a & e & b & -> & Hl & Hc & Ha & He & Hf & Hlf & Hcf & Hb).
  assert (typeof_in (heap w) (VObject l) = "object") as T
    by (cbn; rewrite Hl, Hc; reflexivity).
  assert (get_in (heap w) l "apiUrl" = VString a) as Ga
    by (unfold get_in; rewrite Hl, Ha; reflexivity).
  assert (get_in (heap w) l "environment" = VString e) as Ge
    by (unfold get_in; rewrite Hl, He; reflexivity).
  assert (get_in (heap w) l "features" = VObject lf) as Gf
    by (unfold get_in; rewrite Hl, Hf; reflexivity).
  assert (typeof_in (heap w) (VObject lf) = "object") as Tf
    by (cbn; rewrite Hlf, Hcf; reflexivity).
  assert (get_in (heap w) lf "enableFeatureX" = VBool b) as Gb
    by (unfold get_in; rewrite Hlf, Hb; reflexivity).
  unfold Config.validateConfig. js_step.
  rewrite T. pass_check. rewrite Ga. pass_check. rewrite Ge. pass_check.
  rewrite Gf, Tf. pass_check. rewrite Gf, Gb. reflexivity.
Qed.

(** An object whose [apiUrl] and [environment] are strings and whose
    [features] is [null] gets past [typeof ... === 'object'], and the next
    read goes through [null]. *)
Lemma validateConfig_null_features l o a e w :
  heap w !! l = Some o → callable o = false →
  props o !! "apiUrl" = Some (VString a) →
  props o !! "environment" = Some (VString e) →
  props o !! "features" = Some VNull →
  Config.validateConfig (VObject l) w = (Throw TypeError, w).
Proof.
  intros Hl Hc Ha He Hf.
  assert (typeof_in (heap w) (VObject l) = "object") as T
    by (cbn; rewrite Hl, Hc; reflexivity).
  assert (get_in (heap w) l "apiUrl" = VString a) as Ga
    by (unfold get_in; rewrite Hl, Ha; reflexivity).
  assert (get_in (heap w) l "environment" = VString e) as Ge
    by (unfold get_in; rewrite Hl, He; reflexivity).
  assert (get_in (heap w) l "features" = VNull) as Gf
    by (unfold get_in; rewrite Hl, Hf; reflexivity).
  unfold Config.validateConfig. js_step.
  rewrite T. pass_check. rewrite Ga. pass_check. rewrite Ge. pass_check.
  rewrite Gf. pass_check. rewrite Gf. reflexivity.
Qed.

(** The test [windowConfig && validateConfig(windowConfig)] of both
    accessors, in its three outcomes. *)
Lemma guard_absent w :
  (ret VUndefined &&. Config.validateConfig VUndefined) w = (Normal VUndefined, w).
Proof. reflexivity. Qed.

Lemma guard_ill_typed v w :
  ill_typed (heap w) v →
  ∃ c, (ret v &&. Config.validateConfig v) w = (Normal c, w) ∧ truthy c = false.
Proof.
  intros Hill. js_step. destruct (truthy v) eqn:Hv.
  - exists (VBool false). split; [|reflexivity].
    apply validateConfig_ill_typed; [|assumption].
    intros ->. discriminate.
  - exists v. split; [reflexivity | assumption].
Qed.

Lemma guard_well_shaped v w :
  well_shaped (heap w) v →
  (ret v &&. Config.validateConfig v) w = (Normal (VBool true), w).
Proof.
  intros Hs.
  assert (truthy v = true) as Hv
    by (destruct Hs as (l & o & lf & f & a & e & b & -> & _); reflexivity).
  js_step. rewrite Hv. apply validateConfig_well_shaped, Hs.
Qed.

(** ** The two accessors in the browser *)

Lemma getConfig_browser rt m wl w v :
  window rt = Some wl →
  default VUndefined (binding w wl) = v →
  Config.getConfig rt m w
  = after_guard v (Config.DEFAULT_CONFIG m)
      ((ret v &&. Config.validateConfig v) w).
Proof.
  intros Hw Hv. unfold Config.getConfig. rewrite Hw.
  unfold mbind at 1, js_bind, bind at 1, window_get, get.
  rewrite binding_get, Hv.
  unfold mbind at 1, bind at 1.
  destruct ((ret v &&. Config.validateConfig v) w) as [[c|e] w']; cbn;
    [destruct (truthy c)|]; reflexivity.
Qed.

Lemma getClientConfig_browser rt m wl w v :
  window rt = Some wl →
  default VUndefined (binding w wl) = v →
  UseConfig.getClientConfig rt m w
  = after_guard v (UseConfig.DEFAULT_CONFIG m)
      ((ret v &&. Config.validateConfig v) w).
Proof.
  intros Hw Hv. unfold UseConfig.getClientConfig. rewrite Hw.
  unfold mbind at 1, js_bind, bind at 1.
  unfold mbind at 1, bind at 1, window_get, get.
  rewrite binding_get, Hv.
  unfold mbind at 1, bind at 1. rewrite validateConfig_same.
  destruct ((ret v &&. Config.validateConfig v) w) as [[c|e] w']; cbn;
    [destruct (truthy c)|]; reflexivity.
Qed.

(** The guard throws on one shape only: an object that gets past the tests
    on [apiUrl] and [environment] and whose [features] is [null]. *)
Lemma guard_throws v w e w' :
  (ret v &&. Config.validateConfig v) w = (Throw e, w') →
  e = TypeError ∧ w' = w
  ∧ ∃ l, v = VObject l
         ∧ typeof_in (heap w) (get_in (heap w) l "apiUrl") = "string"
         ∧ typeof_in (heap w) (get_in (heap w) l "environment") = "string"
         ∧ get_in (heap w) l "features" = VNull.
Proof.
  intros H. unfold Config.validateConfig in H. js_step.
  destruct v as [| |b|n|s|l]; cbn [truthy] in H; try discriminate H.
  - destruct b; discriminate H.
  - destruct (negb (Z.eqb n 0)); discriminate H.
  - destruct (negb (String.eqb s "")); discriminate H.
  - cbv beta iota in H.
    repeat (rewrite truthy_strict_eq_string in H;
            case_bool_decide; [|discriminate H]).
    destruct (get_in (heap w) l "features") eqn:Hf; try discriminate H;
      try discriminate;
      injection H as <- <-; (split; [reflexivity|]); (split; [reflexivity|]);
      exists l; repeat split; assumption.
Qed.

(** ** Object literals of the configuration's shape *)

Lemma yields_ret v h : yields (ret v) v h.
Proof. intros w _. reflexivity. Qed.

Lemma heap_define_insert l p v c ps (h : gmap loc object) :
  heap_define l p v (<[l := Object c ps]> h) = <[l := Object c (<[p := v]> ps)]> h.
Proof. unfold heap_define. rewrite alter_insert_eq. reflexivity. Qed.

Lemma config_fields_built a e f :
  <["features" := f]> (<["environment" := e]> (<["apiUrl" := a]> ∅))
  = config_fields a e f.
Proof.
  unfold config_fields. apply map_eq. intros k.
  destruct (decide (k = "features")) as [->|]; [reflexivity|].
  destruct (decide (k = "environment")) as [->|]; [reflexivity|].
  destruct (decide (k = "apiUrl")) as [->|]; [reflexivity|].
  rewrite !lookup_insert_ne by congruence.
  rewrite lookup_singleton_ne by congruence. reflexivity.
Qed.

(** The literal [{ apiUrl: ea, environment: ee, features: { enableFeatureX:
    eb } }] creates two fresh objects and leaves every other object alone. *)
Lemma config_literal_run ea ee eb a e b w :
  yields ea a (heap w) → yields ee e (heap w) → yields eb b (heap w) →
  let l := fresh (dom (heap w)) in
  let lf := fresh ({[l]} ∪ dom (heap w)) in
  object_literal
    [ ("apiUrl", ea); ("environment", ee);
      ("features", object_literal [ ("enableFeatureX", eb) ]) ] w
  = (Normal (VObject l),
     World (<[l := Object false (config_fields a e (VObject lf))]>
              (<[lf := Object false (features_fields b)]> (heap w)))
           (console w)).
Proof.
  intros Ha He Hb l lf.
  assert (heap w !! l = None) as Hl
    by (apply not_elem_of_dom, is_fresh).
  assert (lf ∉ {[l]} ∪ dom (heap w)) as Hlf by apply is_fresh.
  assert (lf ≠ l) as Hne by set_solver.
  assert (heap w !! lf = None) as Hlf' by (apply not_elem_of_dom; set_solver).
  unfold object_literal, fill, new_object. js_step. fold l.
  rewrite Ha by (cbn; apply insert_subseteq, Hl).
  unfold define at 1. js_step. rewrite heap_define_insert.
  rewrite He by (cbn; apply insert_subseteq, Hl).
  unfold define at 1. js_step. rewrite heap_define_insert.
  rewrite dom_insert_L. fold lf.
  rewrite Hb.
  2:{ cbn. etrans; [apply insert_subseteq, Hl|].
      apply insert_subseteq. rewrite lookup_insert_ne by done. exact Hlf'. }
  unfold define. js_step. rewrite heap_define_insert.
  rewrite insert_insert_ne by done. rewrite heap_define_insert.
  rewrite config_fields_built, insert_empty. reflexivity.
Qed.

(** The two locations such a literal takes are new and distinct. *)
Lemma literal_locations (h : gmap loc object) :
  let l := fresh (dom h) in
  let lf := fresh ({[l]} ∪ dom h) in
  h !! l = None ∧ h !! lf = None ∧ l ≠ lf.
Proof.
  intros l lf.
  assert (lf ∉ {[l]} ∪ dom h) as Hlf by apply is_fresh.
  split; [apply not_elem_of_dom, is_fresh|].
  split; [apply not_elem_of_dom; set_solver | set_solver].
Qed.

Lemma literal_extends (h : gmap loc object) o1 o2 :
  let l := fresh (dom h) in
  let lf := fresh ({[l]} ∪ dom h) in
  h ⊆ <[l := o1]> (<[lf := o2]> h).
Proof.
  intros l lf. destruct (literal_locations h) as (Hl & Hlf & Hne).
  etrans; [apply (insert_subseteq h lf o2), Hlf|].
  apply insert_subseteq. rewrite lookup_insert_ne by (intros E; apply Hne; symmetry; exact E).
  exact Hl.
Qed.

Lemma is_default_weaken (h h' : gmap loc object) v :
  h ⊆ h' → is_default h v → is_default h' v.
Proof.
  intros Hsub (d & df & -> & Hne & Hd & Hdf).
  exists d, df. repeat split; try assumption.
  - eapply lookup_weaken; eassumption.
  - eapply lookup_weaken; eassumption.
Qed.

(** What the fallback literal of either module leaves behind. *)
Lemma DEFAULT_CONFIG_literal_run w :
  ∃ v w',
    Config.DEFAULT_CONFIG_literal w = (Normal v, w')
    ∧ heap w ⊆ heap w' ∧ console w' = console w
    ∧ is_default (heap w') v.
Proof.
  unfold Config.DEFAULT_CONFIG_literal.
  rewrite (config_literal_run _ _ _ _ _ _ w
             (yields_ret _ _) (yields_ret _ _) (yields_ret _ _)).
  destruct (literal_locations (heap w)) as (Hl & Hlf & Hne).
  eexists _, _. split; [reflexivity|]. cbn [heap console].
  split; [apply literal_extends|]. split; [reflexivity|].
  eexists _, _. split; [reflexivity|]. split; [exact Hne|]. split.
  - apply lookup_insert_eq.
  - rewrite lookup_insert_ne by exact Hne. apply lookup_insert_eq.
Qed.

(** ** The accessor on the server *)

Lemma yields_env_or rt name d o p s (h : gmap loc object) :
  h !! d = Some o → props o !! p = Some (VString s) →
  yields (env_var rt name ||. get (VObject d) p)
         (VString (or_else (process_env rt !! name) s)) h.
Proof.
  intros Hd Hp w Hsub.
  assert (get_in (heap w) d p = VString s) as G.
  { unfold get_in. rewrite (lookup_weaken _ _ _ _ Hd Hsub), Hp. reflexivity. }
  js_step. unfold or_else.
  destruct (process_env rt !! name) as [x|]; cbn [truthy].
  - destruct (String.eqb x ""); cbn [negb]; [rewrite G|]; reflexivity.
  - rewrite G. reflexivity.
Qed.

Lemma yields_env_is_true rt name (h : gmap loc object) :
  yields (x ← env_var rt name; ret (strict_eq x (VString "true")))
         (VBool (bool_decide (process_env rt !! name = Some "true"))) h.
Proof.
  intros w _. js_step. unfold strict_eq. do 3 f_equal.
  apply bool_decide_ext.
  destruct (process_env rt !! name) as [x|]; split; congruence.
Qed.

(** ** Scanning and parsing the generated file *)

Lemma scan_app m (s1 s2 : string) :
  Script.scan m (s1 +:+ s2)
  = '(ts, m1) ← Script.scan m s1;
    '(ts', m2) ← Script.scan m1 s2;
    Some ((ts ++ ts')%list, m2).
Proof.
  revert m. induction s1 as [|c s1 IH]; intros m.
  - change ("" +:+ s2) with s2. cbn.
    destruct (Script.scan m s2) as [[ts' m2]|]; reflexivity.
  - change (String c s1 +:+ s2) with (String c (s1 +:+ s2)).
    cbn [Script.scan].
    destruct (Script.advance m c) as [[ts m1]|]; [|reflexivity].
    cbn [mbind option_bind]. rewrite IH.
    destruct (Script.scan m1 s1) as [[ts1 m2]|]; [|reflexivity].
    cbn [mbind option_bind].
    destruct (Script.scan m2 s2) as [[ts2 m3]|]; [|reflexivity].
    cbn [mbind option_bind]. rewrite app_assoc. reflexivity.
Qed.

Lemma snoc_append acc c (s : string) :
  Script.snoc acc c +:+ s = acc +:+ String c s.
Proof.
  unfold Script.snoc. induction acc as [|a acc IH]; [reflexivity|].
  change ((String a acc +:+ String c "") +:+ s)
    with (String a ((acc +:+ String c "") +:+ s)).
  rewrite IH. reflexivity.
Qed.

(** Inside a literal, plain text is taken up as it stands. *)
Lemma scan_plain (s : string) :
  ∀ acc, Script.plain s = true →
         Script.scan (Script.InString acc) s
         = Some ([], Script.InString (acc +:+ s)).
Proof.
  induction s as [|c s IH]; intros acc Hp.
  - cbn. replace (acc +:+ "") with acc; [reflexivity|].
    clear. induction acc as [|a acc IH]; [reflexivity|].
    change (String a acc +:+ "") with (String a (acc +:+ "")).
    rewrite <- IH. reflexivity.
  - cbn [Script.plain] in Hp. apply andb_prop in Hp as [Hc Hp].
    apply negb_true_iff in Hc.
    apply orb_false_elim in Hc as [Hc Hcr].
    apply orb_false_elim in Hc as [Hc Hlf].
    apply orb_false_elim in Hc as [Hq Hb].
    cbn [Script.scan Script.advance]. rewrite Hq, Hb, Hlf, Hcr.
    cbn [orb mbind option_bind]. rewrite (IH _ Hp).
    cbn [mbind option_bind app]. rewrite snoc_append. reflexivity.
Qed.

Lemma plain_or_else var fallback :
  plain_or_unset var = true → Script.plain fallback = true →
  Script.plain (or_else var fallback) = true.
Proof.
  intros Hv Hf. unfold or_else. destruct var as [s|]; [|assumption].
  destruct (String.eqb s ""); assumption.
Qed.

(** Replace the scan of a text known in full by its tokens. *)
Ltac scan_known m s :=
  let r := eval vm_compute in (Script.scan m s) in
  replace (Script.scan m s) with r by (vm_compute; reflexivity);
  cbn [mbind option_bind].

Lemma parse_generated (a e : string) (b : bool) :
  Script.plain a = true → Script.plain e = true →
  Script.parse
    ("window.__APP_CONFIG__ = {
  apiUrl: '" +:+ a +:+ "',
  environment: '" +:+ e +:+ "',
  features: {
    enableFeatureX: " +:+ (if b then "true" else "false") +:+ "
  }
};
console.log('Runtime config loaded:', window.__APP_CONFIG__);
")
  = Some (generated_program a e b).
Proof.
  intros Ha He. unfold Script.parse, Script.lex.
  rewrite scan_app.
  scan_known Script.Code "window.__APP_CONFIG__ = {
  apiUrl: '".
  rewrite scan_app, (scan_plain a "" Ha). change ("" +:+ a) with a.
  cbn [mbind option_bind].
  rewrite scan_app.
  scan_known (Script.InString a) "',
  environment: '".
  rewrite scan_app, (scan_plain e "" He). change ("" +:+ e) with e.
  cbn [mbind option_bind].
  destruct b.
  - match goal with
    | |- context [Script.scan ?m ?s] => scan_known m s
    end.
    vm_compute. reflexivity.
  - match goal with
    | |- context [Script.scan ?m ?s] => scan_known m s
    end.
    vm_compute. reflexivity.
Qed.

(** The file that the entrypoint writes, seen as a program. *)
Lemma parse_config_js env :
  well_formed env = true →
  Script.parse (Entrypoint.config_js env)
  = Some (generated_program
            (or_else (env !! "API_URL") "https://default.example.com")
            (or_else (env !! "ENVIRONMENT") "production")
            (bool_decide (env !! "ENABLE_FEATURE_X" = Some "true"))).
Proof.
  intros Hwf. unfold well_formed in Hwf.
  apply andb_prop in Hwf as [Hwf Hflag]. apply andb_prop in Hwf as [Ha He].
  assert (Entrypoint.expand env "ENABLE_FEATURE_X" "false"
          = if bool_decide (env !! "ENABLE_FEATURE_X" = Some "true")
            then "true" else "false") as Hf.
  { unfold Entrypoint.expand. apply orb_prop in Hflag as [H | H].
    - apply bool_decide_eq_true_1 in H. rewrite H. reflexivity.
    - apply bool_decide_eq_true_1 in H. rewrite H. reflexivity. }
  unfold Entrypoint.config_js. rewrite Hf.
  change (Entrypoint.expand env "API_URL" "https://default.example.com")
    with (or_else (env !! "API_URL") "https://default.example.com").
  change (Entrypoint.expand env "ENVIRONMENT" "production")
    with (or_else (env !! "ENVIRONMENT") "production").
  apply parse_generated; apply plain_or_else; (assumption || reflexivity).
Qed.

(** ** The accessor in the browser: claims *)

(** C5.  When [window] exists and has no [__APP_CONFIG__], [getConfig]
    returns the module's fallback object; the store is untouched and one
    warning is written. *)
Theorem getConfig_absent_returns_default rt m wl w :
  window rt = Some wl →
  binding w wl = None →
  Config.getConfig rt m w
  = (Normal (Config.DEFAULT_CONFIG m), say fallback_warning w).
Proof.
  intros Hw Hb.
  rewrite (getConfig_browser rt m wl w VUndefined Hw) by (rewrite Hb; reflexivity).
  rewrite guard_absent. reflexivity.
Qed.

Lemma getConfig_absent_returns_default_witness :
  window Sample.browser = Some 0
  ∧ binding Sample.bare 0 = None
  ∧ Config.getConfig Sample.browser Sample.config_module Sample.bare
    = (Normal (VObject 7), say fallback_warning Sample.bare).
Proof.
  split; [reflexivity|]. split; [reflexivity|].
  apply (getConfig_absent_returns_default
           Sample.browser Sample.config_module 0 Sample.bare);
    reflexivity.
Defined.

(** X20.  Where a checked field of the binding has the wrong [typeof]
    ([apiUrl] a number, say), or [features] is missing altogether,
    [getConfig] does return, and what it returns is the fallback object
    itself: nothing of the binding is merged into the result, and the
    store is untouched.  A [features] that is [null] is not among these
    cases (its [typeof] is "object", and [getConfig] throws there, see
    C3). *)
Theorem getConfig_ill_typed_returns_default rt m wl w v :
  window rt = Some wl →
  binding w wl = Some v →
  ill_typed (heap w) v →
  Config.getConfig rt m w
  = (Normal (Config.DEFAULT_CONFIG m), say fallback_warning w).
Proof.
  intros Hw Hb Hill.
  rewrite (getConfig_browser rt m wl w v Hw) by (rewrite Hb; reflexivity).
  destruct (guard_ill_typed v w Hill) as (c & -> & Hc).
  cbn [after_guard]. rewrite Hc. reflexivity.
Qed.

Lemma getConfig_ill_typed_returns_default_witness :
  (binding Sample.without_features 0 = Some (VObject 1)
   ∧ ill_typed (heap Sample.without_features) (VObject 1)
   ∧ Config.getConfig Sample.browser Sample.config_module Sample.without_features
     = (Normal (VObject 7), say fallback_warning Sample.without_features))
  ∧ (binding Sample.numeric_url 0 = Some (VObject 1)
     ∧ ill_typed (heap Sample.numeric_url) (VObject 1)
     ∧ Config.getConfig Sample.browser Sample.config_module Sample.numeric_url
       = (Normal (VObject 7), say fallback_warning Sample.numeric_url)).
Proof.
  assert (ill_typed (heap Sample.without_features) (VObject 1)) as H1
    by (left; reflexivity).
  assert (ill_typed (heap Sample.numeric_url) (VObject 1)) as H2
    by (right; left; vm_compute; discriminate).
  split; (split; [reflexivity|]); (split; [assumption|]).
  - apply (getConfig_ill_typed_returns_default
             Sample.browser Sample.config_module 0 Sample.without_features
             (VObject 1)); [reflexivity | reflexivity | exact H1].
  - apply (getConfig_ill_typed_returns_default
             Sample.browser Sample.config_module 0 Sample.numeric_url
             (VObject 1)); [reflexivity | reflexivity | exact H2].
Defined.

(** C4.  When the binding has the validated shape, [getConfig] returns the
    binding itself (the same location, so the same object with whatever
    other properties it carries), and the store is left as it was. *)
Theorem getConfig_valid_returns_binding rt m wl w v :
  window rt = Some wl →
  binding w wl = Some v →
  well_shaped (heap w) v →
  Config.getConfig rt m w = (Normal v, say (loaded_notice v) w)
  ∧ heap (snd (Config.getConfig rt m w)) = heap w.
Proof.
  intros Hw Hb Hs.
  assert (Config.getConfig rt m w = (Normal v, say (loaded_notice v) w)) as E.
  { rewrite (getConfig_browser rt m wl w v Hw) by (rewrite Hb; reflexivity).
    rewrite (guard_well_shaped v w Hs). reflexivity. }
  split; [exact E | rewrite E; reflexivity].
Qed.

Lemma getConfig_valid_returns_binding_witness :
  binding Sample.with_extras 0 = Some (VObject 1)
  ∧ well_shaped (heap Sample.with_extras) (VObject 1)
  ∧ Config.getConfig Sample.browser Sample.config_module Sample.with_extras
    = (Normal (VObject 1), say (loaded_notice (VObject 1)) Sample.with_extras)
  ∧ heap (snd (Config.getConfig Sample.browser Sample.config_module
                 Sample.with_extras))
    = heap Sample.with_extras.
Proof.
  assert (well_shaped (heap Sample.with_extras) (VObject 1)) as Hs.
  { eexists 1, _, 2, _, "https://x", "y", true.
    repeat split; reflexivity. }
  split; [reflexivity|]. split; [exact Hs|].
  apply (getConfig_valid_returns_binding
           Sample.browser Sample.config_module 0 Sample.with_extras (VObject 1));
    [reflexivity | reflexivity | exact Hs].
Defined.

(** C2.  A binding [{apiUrl: "https://x", environment: "y", features:
    null}] makes [getConfig] throw a TypeError: [typeof null] is "object",
    so the validator goes on to read [enableFeatureX] of [null].  The
    hook's accessor throws on the same page, and the effect that calls it
    takes the component down. *)
Theorem getConfig_throws_on_null_features :
  Config.getConfig Sample.browser Sample.config_module Sample.null_features
  = (Throw TypeError, Sample.null_features)
  ∧ UseConfig.getClientConfig Sample.browser Sample.hook_module Sample.null_features
    = (Throw TypeError, Sample.null_features)
  ∧ fst (snd (UseConfig.session Sample.browser Sample.hook_module
                [UseConfig.Render; UseConfig.Commit]
                (UseConfig.Live unmounted, Sample.null_features)))
    = UseConfig.Crashed.
Proof.
  assert (Config.validateConfig (VObject 1) Sample.null_features
          = (Throw TypeError, Sample.null_features)) as V.
  { eapply (validateConfig_null_features 1 _ "https://x" "y");
      reflexivity. }
  assert (UseConfig.getClientConfig Sample.browser Sample.hook_module
            Sample.null_features
          = (Throw TypeError, Sample.null_features)) as G.
  { rewrite (getClientConfig_browser _ _ 0 _ (VObject 1)) by reflexivity.
    js_step. cbn [truthy]. rewrite V. reflexivity. }
  split; [|split].
  - rewrite (getConfig_browser _ _ 0 _ (VObject 1)) by reflexivity.
    js_step. cbn [truthy]. rewrite V. reflexivity.
  - exact G.
  - cbn [UseConfig.session UseConfig.step UseConfig.useConfig useState
         useEffect unmounted state_cell effect_deps effect_pending
         UseConfig.commit UseConfig.effect].
    unfold UseConfig.effect, mbind at 1, js_bind, bind at 1.
    rewrite G. reflexivity.
Qed.

(** C9, as the claim has it, fails: a page without the binding and a page
    whose binding lacks [features] both fall back, and the entries written
    to the console are the same. *)
Lemma fallback_diagnostic_does_not_tell_cases_apart :
  binding Sample.bare 0 = None
  ∧ binding Sample.without_features 0 = Some (VObject 1)
  ∧ fst (Config.getConfig Sample.browser Sample.config_module Sample.bare)
    = Normal (Config.DEFAULT_CONFIG Sample.config_module)
  ∧ fst (Config.getConfig Sample.browser Sample.config_module
           Sample.without_features)
    = Normal (Config.DEFAULT_CONFIG Sample.config_module)
  ∧ emitted (Config.getConfig Sample.browser Sample.config_module) Sample.bare
    = emitted (Config.getConfig Sample.browser Sample.config_module)
        Sample.without_features.
Proof. repeat split; vm_compute; reflexivity. Qed.

(** Apart from that shape, the accessor always completes in the browser. *)
Lemma getConfig_throws_only_on_null_features rt m wl w e w' :
  window rt = Some wl →
  Config.getConfig rt m w = (Throw e, w') →
  e = TypeError ∧ w' = w
  ∧ ∃ l, binding w wl = Some (VObject l)
         ∧ typeof_in (heap w) (get_in (heap w) l "apiUrl") = "string"
         ∧ typeof_in (heap w) (get_in (heap w) l "environment") = "string"
         ∧ get_in (heap w) l "features" = VNull.
Proof.
  intros Hw H.
  rewrite (getConfig_browser rt m wl w _ Hw eq_refl) in H.
  destruct ((ret (default VUndefined (binding w wl))
             &&. Config.validateConfig (default VUndefined (binding w wl))) w)
    as [[c|e0] w0] eqn:G; cbn [after_guard] in H.
  - destruct (truthy c); discriminate H.
  - injection H as <- <-.
    destruct (guard_throws _ _ _ _ G) as (-> & -> & l & Hv & Ha & He & Hf).
    split; [reflexivity|]. split; [reflexivity|].
    exists l. repeat split; try assumption.
    destruct (binding w wl) as [v|]; cbn in Hv; [congruence | discriminate].
Qed.

(** ** The accessor on the server: claim *)

(** C8.  Without a [window], [getConfig] builds a new object from
    [process.env] as it is at the call: [apiUrl] and [environment] are the
    variables' values, or the fallback's fields when the variable is unset
    (or empty); [enableFeatureX] is whether the variable is the text
    [true], hence [false], as in the fallback, when it is unset.  No
    property of any existing object, so no global binding, is read other
    than the fallback's, and no existing object is changed. *)
Theorem getConfig_server_reads_environment rt m w :
  window rt = None →
  is_default (heap w) (Config.DEFAULT_CONFIG m) →
  let l := fresh (dom (heap w)) in
  let lf := fresh ({[l]} ∪ dom (heap w)) in
  let apiUrl :=
    or_else (process_env rt !! "NEXT_PUBLIC_API_URL") "https://default.example.com" in
  let environment := or_else (process_env rt !! "NODE_ENV") "default" in
  let enableFeatureX :=
    bool_decide (process_env rt !! "NEXT_PUBLIC_ENABLE_FEATURE_X" = Some "true") in
  Config.getConfig rt m w
  = (Normal (VObject l),
     World (<[l := Object false
                     (config_fields (VString apiUrl) (VString environment)
                                    (VObject lf))]>
              (<[lf := Object false (features_fields (VBool enableFeatureX))]>
                 (heap w)))
           (console w))
  ∧ heap w !! l = None ∧ heap w !! lf = None.
Proof.
  intros Hw (d & df & Hm & Hne & Hd & Hdf) l lf apiUrl environment enableFeatureX.
  split; [|destruct (literal_locations (heap w)) as (? & ? & _); split; assumption].
  unfold Config.getConfig. rewrite Hw, Hm.
  apply config_literal_run.
  - eapply yields_env_or; [exact Hd | reflexivity].
  - eapply yields_env_or; [exact Hd | reflexivity].
  - apply yields_env_is_true.
Qed.

Lemma getConfig_server_reads_environment_witness :
  is_default (heap Sample.loaded) (VObject 7)
  ∧ Config.getConfig (Sample.server {[ "NODE_ENV" := "test" ]})
      Sample.config_module Sample.loaded
    = (Normal (VObject 9),
       World (<[9 := Object false
                       (config_fields (VString "https://default.example.com")
                                      (VString "test") (VObject 10))]>
                (<[10 := Object false (features_fields (VBool false))]>
                   (heap Sample.loaded)))
             []).
Proof.
  assert (is_default (heap Sample.loaded) (VObject 7)) as Hd.
  { exists 7, 8. split; [reflexivity|]. split; [discriminate|].
    split; reflexivity. }
  split; [exact Hd|].
  pose proof (proj1 (getConfig_server_reads_environment
                       (Sample.server {[ "NODE_ENV" := "test" ]})
                       Sample.config_module Sample.loaded eq_refl Hd)) as H.
  vm_compute in H. vm_compute. exact H.
Defined.

(** ** The two copies: claim *)

(** C10.  The validator of [useConfig.ts] and the validator of [config.ts]
    give the same outcome on every value in every world; the two fallback
    literals are the same computation, and once both modules are loaded
    their two constants are two objects with the same field values. *)
Theorem duplicated_default_and_validator_agree :
  (∀ v w, UseConfig.validateConfig v w = Config.validateConfig v w)
  ∧ (∀ w, UseConfig.DEFAULT_CONFIG_literal w = Config.DEFAULT_CONFIG_literal w)
  ∧ (∀ rt w, ∃ m1 w1 m2 w2,
        Config.load rt w = (Normal m1, w1)
        ∧ UseConfig.load w1 = (Normal m2, w2)
        ∧ is_default (heap w2) (Config.DEFAULT_CONFIG m1)
        ∧ is_default (heap w2) (UseConfig.DEFAULT_CONFIG m2)
        ∧ Config.DEFAULT_CONFIG m1 ≠ UseConfig.DEFAULT_CONFIG m2).
Proof.
  split; [reflexivity|]. split; [reflexivity|].
  intros rt w.
  destruct (DEFAULT_CONFIG_literal_run w) as (v1 & wa & E1 & S1 & C1 & D1).
  set (w1 := if has_window rt
             then say (Entry Log [VString "Config module loaded on client side"]) wa
             else wa).
  assert (heap w1 = heap wa) as Hw1 by (unfold w1; destruct (has_window rt); reflexivity).
  destruct (DEFAULT_CONFIG_literal_run w1) as (v2 & w2 & E2 & S2 & C2 & D2).
  exists (Config.Module_ v1), w1, (UseConfig.Module_ v2), w2.
  split; [|split; [|split; [|split]]].
  - unfold Config.load, mbind, js_bind, bind. rewrite E1.
    unfold w1. destruct (has_window rt); reflexivity.
  - unfold UseConfig.load, mbind, js_bind, bind.
    change UseConfig.DEFAULT_CONFIG_literal with Config.DEFAULT_CONFIG_literal.
    rewrite E2. reflexivity.
  - cbn [Config.DEFAULT_CONFIG]. apply (is_default_weaken (heap w1)); [exact S2|].
    rewrite Hw1. exact D1.
  - exact D2.
  - cbn [Config.DEFAULT_CONFIG UseConfig.DEFAULT_CONFIG].
    unfold Config.DEFAULT_CONFIG_literal in E2.
    rewrite (config_literal_run _ _ _ _ _ _ w1
               (yields_ret _ _) (yields_ret _ _) (yields_ret _ _)) in E2.
    injection E2 as <- _.
    destruct D1 as (d & df & -> & _ & Hd & _).
    intros [= ->].
    assert (heap w1 !! fresh (dom (heap w1)) = None) as Hf
      by (apply not_elem_of_dom, is_fresh).
    rewrite <- Hw1 in Hd. rewrite Hd in Hf. discriminate.
Qed.

(** ** The hook: claim *)

Section HookFacts.
Variable rt : realm.
Variable m : UseConfig.module.

Lemma render_unmounted w :
  UseConfig.step rt m UseConfig.Render (UseConfig.Live unmounted, w)
  = (UseConfig.Live (waiting (UseConfig.DEFAULT_CONFIG m)), w,
     Some (UseConfig.DEFAULT_CONFIG m)).
Proof. reflexivity. Qed.

Lemma render_waiting d w :
  UseConfig.step rt m UseConfig.Render (UseConfig.Live (waiting d), w)
  = (UseConfig.Live (waiting d), w, Some d).
Proof. reflexivity. Qed.

Lemma commit_waiting d w v w' :
  UseConfig.getClientConfig rt m w = (Normal v, w') →
  UseConfig.step rt m UseConfig.Commit (UseConfig.Live (waiting d), w)
  = (UseConfig.Live (hydrated v), say (hydration_notice v) w', None).
Proof.
  intros E. cbn [UseConfig.step UseConfig.commit waiting effect_pending].
  unfold UseConfig.effect, mbind at 1, js_bind, bind at 1. rewrite E.
  reflexivity.
Qed.

(** Once hydrated, no event changes the hook's memory or writes to the
    console, and a render returns the hydrated value. *)
Lemma step_hydrated v ev w :
  ∃ w' r,
    UseConfig.step rt m ev (UseConfig.Live (hydrated v), w)
    = (UseConfig.Live (hydrated v), w', r)
    ∧ (r = None ∨ r = Some v) ∧ console w' = console w.
Proof.
  destruct ev as [| |h].
  - exists w, (Some v). repeat split. right; reflexivity.
  - exists w, None. repeat split. left; reflexivity.
  - exists (World h (console w)), None. repeat split. left; reflexivity.
Qed.

Lemma session_hydrated v evs :
  ∀ w,
    let r := UseConfig.session rt m evs (UseConfig.Live (hydrated v), w) in
    Forall (eq v) r.1 ∧ r.2.1 = UseConfig.Live (hydrated v)
    ∧ console r.2.2 = console w.
Proof.
  induction evs as [|ev evs IH]; intros w.
  - cbn. repeat split. constructor.
  - destruct (step_hydrated v ev w) as (w' & r & E & Hr & Hc).
    cbn [UseConfig.session]. rewrite E.
    specialize (IH w'). cbn zeta in IH.
    destruct (UseConfig.session rt m evs (UseConfig.Live (hydrated v), w'))
      as [vs final].
    destruct IH as (Hvs & Hfinal & Hcons). cbn [fst snd] in *.
    split; [|split; [assumption | congruence]].
    destruct Hr as [-> | ->]; [assumption | constructor; [reflexivity | assumption]].
Qed.

End HookFacts.

(** C6.  The first call of [useConfig] returns the module's fallback
    object in every world, and so does every call before the effect runs.
    When the effect runs and the accessor returns [v], the hook's state
    becomes [v]; from then on, over any sequence of renders, commits and
    rewrites of the store, every call returns [v], the hook's memory stays
    as it is, and nothing more is written to the console. *)
Theorem useConfig_default_then_hydrated rt m :
  (∀ w, UseConfig.step rt m UseConfig.Render (UseConfig.Live unmounted, w)
        = (UseConfig.Live (waiting (UseConfig.DEFAULT_CONFIG m)), w,
           Some (UseConfig.DEFAULT_CONFIG m)))
  ∧ (∀ w, UseConfig.step rt m UseConfig.Render
            (UseConfig.Live (waiting (UseConfig.DEFAULT_CONFIG m)), w)
          = (UseConfig.Live (waiting (UseConfig.DEFAULT_CONFIG m)), w,
             Some (UseConfig.DEFAULT_CONFIG m)))
  ∧ (∀ w v w',
        UseConfig.getClientConfig rt m w = (Normal v, w') →
        UseConfig.step rt m UseConfig.Commit
          (UseConfig.Live (waiting (UseConfig.DEFAULT_CONFIG m)), w)
        = (UseConfig.Live (hydrated v), say (hydration_notice v) w', None)
        ∧ ∀ evs w'',
            let r := UseConfig.session rt m evs (UseConfig.Live (hydrated v), w'') in
            Forall (eq v) r.1 ∧ r.2.1 = UseConfig.Live (hydrated v)
            ∧ console r.2.2 = console w'').
Proof.
  split; [|split].
  - intros w. apply render_unmounted.
  - intros w. apply render_waiting.
  - intros w v w' E. split.
    + apply commit_waiting, E.
    + intros evs w''. apply session_hydrated.
Qed.

Lemma useConfig_default_then_hydrated_witness :
  UseConfig.getClientConfig Sample.browser Sample.hook_module Sample.with_extras
  = (Normal (VObject 1), say (loaded_notice (VObject 1)) Sample.with_extras)
  ∧ UseConfig.step Sample.browser Sample.hook_module UseConfig.Commit
      (UseConfig.Live (waiting (VObject 9)), Sample.with_extras)
    = (UseConfig.Live (hydrated (VObject 1)),
       say (hydration_notice (VObject 1))
         (say (loaded_notice (VObject 1)) Sample.with_extras), None)
  ∧ Forall (eq (VObject 1))
      (UseConfig.session Sample.browser Sample.hook_module
         [UseConfig.Render; UseConfig.Interfere (heap Sample.bare);
          UseConfig.Commit; UseConfig.Render]
         (UseConfig.Live (hydrated (VObject 1)), Sample.with_extras)).1.
Proof.
  assert (UseConfig.getClientConfig Sample.browser Sample.hook_module
            Sample.with_extras
          = (Normal (VObject 1), say (loaded_notice (VObject 1)) Sample.with_extras))
    as E by (vm_compute; reflexivity).
  split; [exact E|].
  destruct (proj2 (proj2 (useConfig_default_then_hydrated
                            Sample.browser Sample.hook_module))
              Sample.with_extras (VObject 1) _ E) as [Hc Hs].
  split; [exact Hc|].
  exact (proj1 (Hs [UseConfig.Render; UseConfig.Interfere (heap Sample.bare);
                    UseConfig.Commit; UseConfig.Render]
                   Sample.with_extras)).
Defined.

(** One page load from the first render on: two renders before the effect,
    the effect, a rewrite of the store that removes the binding, and two
    more renders around a second commit. *)
Example page_load_trace :
  (UseConfig.session Sample.browser Sample.hook_module
     [UseConfig.Render; UseConfig.Render; UseConfig.Commit;
      UseConfig.Interfere (heap Sample.bare); UseConfig.Render;
      UseConfig.Commit; UseConfig.Render]
     (UseConfig.Live unmounted, Sample.with_extras)).1
  = [VObject 9; VObject 9; VObject 1; VObject 1].
Proof. vm_compute. reflexivity. Qed.

(** ** Running the generated file *)

Lemma get_in_heap_define (h : gmap loc object) l o p v :
  h !! l = Some o → get_in (heap_define l p v h) l p = v.
Proof.
  intros Hl. unfold get_in, heap_define.
  rewrite lookup_alter_eq, Hl. cbn. rewrite lookup_insert_eq. reflexivity.
Qed.

Lemma binding_heap_define (h : gmap loc object) wl o v c :
  h !! wl = Some o →
  binding (World (heap_define wl "__APP_CONFIG__" v h) c) wl = Some v.
Proof.
  intros Hl. unfold binding, heap_define. cbn [heap].
  rewrite lookup_alter_eq, Hl. cbn. apply lookup_insert_eq.
Qed.

Lemma heap_define_other (h : gmap loc object) l l' p v :
  l ≠ l' → heap_define l p v h !! l' = h !! l'.
Proof. intros Hne. unfold heap_define. apply lookup_alter_ne, Hne. Qed.

Lemma run_generated wl o a e b w :
  heap w !! wl = Some o →
  let l := fresh (dom (heap w)) in
  let lf := fresh ({[l]} ∪ dom (heap w)) in
  Script.run wl (generated_program a e b) w
  = (Normal tt,
     say (runtime_notice (VObject l))
       (World (heap_define wl "__APP_CONFIG__" (VObject l)
                 (<[l := Object false
                           (config_fields (VString a) (VString e) (VObject lf))]>
                    (<[lf := Object false (features_fields (VBool b))]>
                       (heap w))))
              (console w))).
Proof.
  intros Hwl l lf.
  destruct (literal_locations (heap w)) as (Hl & Hlf & Hne).
  assert (wl ≠ l) as Hwl_l by (intros ->; fold l in Hl; congruence).
  assert (wl ≠ lf) as Hwl_lf by (intros ->; fold l lf in Hlf; congruence).
  unfold generated_program.
  cbn [Script.run Script.eval map fst snd Script.sequence].
  unfold mbind at 1, js_bind, bind at 1.
  unfold mbind at 1, bind at 1.
  unfold mbind at 1, bind at 1.
  change (Script.resolve wl "window" w) with (Normal (VObject wl), w).
  cbv beta iota.
  unfold mbind at 1, bind at 1.
  rewrite (config_literal_run _ _ _ (VString a) (VString e) (VBool b) w
             (yields_ret _ _) (yields_ret _ _) (yields_ret _ _)).
  fold l lf. cbv beta iota.
  unfold mbind at 1, bind at 1.
  unfold Script.put, define. cbn [heap console]. cbv beta iota.
  unfold mret, js_ret, ret at 1. cbv beta iota.
  js_step.
  match goal with
  | |- context [Script.resolve wl "window" ?w'] =>
      change (Script.resolve wl "window" w') with (Normal (VObject wl), w')
  end.
  cbn [heap console].
  rewrite (get_in_heap_define _ wl o).
  2:{ rewrite lookup_insert_ne by (intros E; apply Hwl_l; symmetry; exact E).
      rewrite lookup_insert_ne by (intros E; apply Hwl_lf; symmetry; exact E).
      exact Hwl. }
  reflexivity.
Qed.

(** ** The materializer: claims *)

(** C7.  For variables that are well formed (the two texts free of quote,
    backslash and line break; the flag unset or [true]), the file that the
    entrypoint writes is a program which, run in a page, creates two new
    objects and binds [window.__APP_CONFIG__] to the first: its fields are
    exactly [apiUrl] and [environment], each the variable's text or the
    script's default, and [features], the second object, whose only field
    [enableFeatureX] is whether the flag variable is [true]. *)
Theorem config_js_roundtrip env wl o w :
  well_formed env = true →
  heap w !! wl = Some o →
  ∃ prog l lf w',
    Script.parse (Entrypoint.config_js env) = Some prog
    ∧ Script.run wl prog w = (Normal tt, w')
    ∧ heap w !! l = None ∧ heap w !! lf = None
    ∧ binding w' wl = Some (VObject l)
    ∧ heap w' !! l
      = Some (Object false
                (config_fields
                   (VString (or_else (env !! "API_URL") "https://default.example.com"))
                   (VString (or_else (env !! "ENVIRONMENT") "production"))
                   (VObject lf)))
    ∧ heap w' !! lf
      = Some (Object false
                (features_fields
                   (VBool (bool_decide (env !! "ENABLE_FEATURE_X" = Some "true"))))).
Proof.
  intros Hwf Hwl.
  destruct (literal_locations (heap w)) as (Hl & Hlf & Hne).
  set (l := fresh (dom (heap w))) in *.
  set (lf := fresh ({[l]} ∪ dom (heap w))) in *.
  assert (wl ≠ l) as Hwl_l by (intros ->; congruence).
  assert (wl ≠ lf) as Hwl_lf by (intros ->; congruence).
  eexists _, l, lf, _.
  split; [apply parse_config_js, Hwf|].
  split; [apply (run_generated wl o), Hwl|].
  split; [exact Hl|]. split; [exact Hlf|].
  cbn [say heap console]. fold l lf. split; [|split].
  - apply (binding_heap_define _ wl o).
    rewrite !lookup_insert_ne by congruence. exact Hwl.
  - rewrite heap_define_other by exact Hwl_l. apply lookup_insert_eq.
  - rewrite heap_define_other by exact Hwl_lf.
    rewrite lookup_insert_ne by exact Hne. apply lookup_insert_eq.
Qed.

Lemma config_js_roundtrip_witness :
  (well_formed Sample.no_variables = true
   ∧ ∃ prog l lf w',
       Script.parse (Entrypoint.config_js Sample.no_variables) = Some prog
       ∧ Script.run 0 prog Sample.bare = (Normal tt, w')
       ∧ heap Sample.bare !! l = None ∧ heap Sample.bare !! lf = None
       ∧ binding w' 0 = Some (VObject l)
       ∧ heap w' !! l
         = Some (Object false
                   (config_fields (VString "https://default.example.com")
                                  (VString "production") (VObject lf)))
       ∧ heap w' !! lf = Some (Object false (features_fields (VBool false))))
  ∧ (well_formed Sample.dev_variables = true
     ∧ ∃ prog l lf w',
         Script.parse (Entrypoint.config_js Sample.dev_variables) = Some prog
         ∧ Script.run 0 prog Sample.bare = (Normal tt, w')
         ∧ heap Sample.bare !! l = None ∧ heap Sample.bare !! lf = None
         ∧ binding w' 0 = Some (VObject l)
         ∧ heap w' !! l
           = Some (Object false
                     (config_fields (VString "https://dev.example.com")
                                    (VString "development") (VObject lf)))
         ∧ heap w' !! lf = Some (Object false (features_fields (VBool true)))).
Proof.
  split; (split; [reflexivity|]).
  - exact (config_js_roundtrip Sample.no_variables 0 (Object false ∅)
             Sample.bare eq_refl eq_refl).
  - exact (config_js_roundtrip Sample.dev_variables 0 (Object false ∅)
             Sample.bare eq_refl eq_refl).
Defined.

(** The two scenarios, run from the text of the file to the accessor: the
    page's binding passes the validator and [getConfig] hands it on. *)
Example no_variables_end_to_end :
  ∃ prog w',
    Script.parse (Entrypoint.config_js Sample.no_variables) = Some prog
    ∧ Script.run 0 prog Sample.bare = (Normal tt, w')
    ∧ fst (Config.getConfig Sample.browser Sample.config_module w')
      = Normal (VObject 1)
    ∧ heap w' !! 1
      = Some (Object false
                (config_fields (VString "https://default.example.com")
                               (VString "production") (VObject 2)))
    ∧ heap w' !! 2 = Some (Object false (features_fields (VBool false))).
Proof. eexists _, _. repeat split; vm_compute; reflexivity. Qed.

(** C1, as the claim has it, fails: with [ENABLE_FEATURE_X=yes] the text
    written after [enableFeatureX:] is [yes], not [false]. *)
Lemma flag_yes_is_written_as_yes :
  Entrypoint.emitted_flag Sample.flag_yes ≠ "false"
  ∧ Entrypoint.config_js Sample.flag_yes
    = "window.__APP_CONFIG__ = {
  apiUrl: 'https://default.example.com',
  environment: 'production',
  features: {
    enableFeatureX: yes
  }
};
console.log('Runtime config loaded:', window.__APP_CONFIG__);
".
Proof. split; [vm_compute; discriminate | vm_compute; reflexivity]. Qed.

(** C1, amended.  The text written after [enableFeatureX:] is [false] when
    the variable is unset or empty, and otherwise the variable's own text,
    unquoted and unchanged: [true] for [true], and likewise [yes] for [yes]
    and [1] for [1]. *)
Theorem emitted_flag_is_the_variable_text env :
  Entrypoint.emitted_flag env
  = match env !! "ENABLE_FEATURE_X" with
    | None => "false"
    | Some "" => "false"
    | Some text => text
    end
  ∧ Entrypoint.config_js env
    = "window.__APP_CONFIG__ = {
  apiUrl: '" +:+ Entrypoint.expand env "API_URL" "https://default.example.com" +:+ "',
  environment: '" +:+ Entrypoint.expand env "ENVIRONMENT" "production" +:+ "',
  features: {
    enableFeatureX: " +:+ Entrypoint.emitted_flag env +:+ "
  }
};
console.log('Runtime config loaded:', window.__APP_CONFIG__);
".
Proof.
  split; [|reflexivity].
  unfold Entrypoint.emitted_flag, Entrypoint.expand.
  destruct (env !! "ENABLE_FEATURE_X") as [[|c text]|]; reflexivity.
Qed.

(** What the browser makes of such files.  With [yes], the identifier is
    not defined: the script stops with a ReferenceError and the binding is
    never made.  With [1], the binding is made with a number for a flag,
    which the accessor then turns down. *)
Example flag_yes_in_the_browser :
  ∃ prog,
    Script.parse (Entrypoint.config_js Sample.flag_yes) = Some prog
    ∧ fst (Script.run 0 prog Sample.bare) = Throw ReferenceError
    ∧ binding (snd (Script.run 0 prog Sample.bare)) 0 = None.
Proof. eexists. repeat split; vm_compute; reflexivity. Qed.

Example flag_one_in_the_browser :
  ∃ prog w',
    Script.parse (Entrypoint.config_js Sample.flag_one) = Some prog
    ∧ Script.run 0 prog Sample.bare = (Normal tt, w')
    ∧ heap w' !! 2 = Some (Object false (features_fields (VNumber 1)))
    ∧ fst (Config.getConfig Sample.browser Sample.config_module w')
      = Normal (VObject 7).
Proof. eexists _, _. repeat split; vm_compute; reflexivity. Qed.
(** * Further properties of the code *)

(** ** What [typeof] and a property read tell *)

Lemma typeof_string_inv h x : typeof_in h x = "string" → ∃ s, x = VString s.
Proof.
  destruct x as [| |b|n|s|l]; cbn; try discriminate; [eauto|].
  destruct (h !! l) as [o|]; [destruct (callable o)|]; discriminate.
Qed.

Lemma typeof_boolean_inv h x : typeof_in h x = "boolean" → ∃ b, x = VBool b.
Proof.
  destruct x as [| |b|n|s|l]; cbn; try discriminate; [eauto|].
  destruct (h !! l) as [o|]; [destruct (callable o)|]; discriminate.
Qed.

Lemma get_in_defined (h : gmap loc object) l p v :
  get_in h l p = v → v ≠ VUndefined →
  ∃ o, h !! l = Some o ∧ props o !! p = Some v.
Proof.
  unfold get_in. intros G Hv. destruct (h !! l) as [o|]; [|congruence].
  exists o. split; [reflexivity|].
  destruct (props o !! p) as [x|]; cbn in G; congruence.
Qed.

Lemma typeof_plain_object (h : gmap loc object) l o :
  h !! l = Some o → typeof_in h (VObject l) = "object" → callable o = false.
Proof.
  cbn. intros ->. destruct (callable o); [discriminate | reflexivity].
Qed.

(** ** The validator *)

(** The outcome of the validator is a matter of the store alone, and the
    validator leaves the world as it found it. *)
Lemma validateConfig_reads_only v h c1 c2 :
  fst (Config.validateConfig v (World h c1))
  = fst (Config.validateConfig v (World h c2))
  ∧ snd (Config.validateConfig v (World h c1)) = World h c1.
Proof.
  unfold Config.validateConfig. js_step.
  destruct v as [| |b|n|s|l]; try (split; reflexivity).
  cbn [heap].
  repeat (rewrite ?truthy_strict_eq_string; case_bool_decide;
          [cbv beta iota; cbn [heap] | split; reflexivity]).
  destruct (get_in h l "features"); split; reflexivity.
Qed.

Lemma validateConfig_true_inv v w w' :
  Config.validateConfig v w = (Normal (VBool true), w') →
  well_shaped (heap w) v.
Proof.
  intros H. unfold Config.validateConfig in H. js_step.
  destruct v as [| |b|n|s|l]; try discriminate H.
  repeat (rewrite truthy_strict_eq_string in H; case_bool_decide;
          [|rewrite strict_eq_string_false in H by assumption; discriminate H]).
  destruct (get_in (heap w) l "features") as [| |b|n|s|lf] eqn:Gf;
    try discriminate H.
  injection H as Hb _.
  apply bool_decide_eq_true_1 in Hb. injection Hb as Hb.
  match goal with
  | Ha : typeof_in _ (get_in _ l "apiUrl") = _,
    He : typeof_in _ (get_in _ l "environment") = _,
    Ho : typeof_in _ (VObject l) = _,
    Hf : typeof_in _ (VObject lf) = _ |- _ =>
      destruct (typeof_string_inv _ _ Ha) as (a & Ga);
      destruct (typeof_string_inv _ _ He) as (e & Ge);
      destruct (typeof_boolean_inv _ _ Hb) as (flag & Gb);
      destruct (get_in_defined _ _ _ _ Ga) as (o & Hl & Pa); [discriminate|];
      destruct (get_in_defined _ _ _ _ Ge) as (o' & Hl' & Pe); [discriminate|];
      destruct (get_in_defined _ _ _ _ Gf) as (o'' & Hl'' & Pf); [discriminate|];
      destruct (get_in_defined _ _ _ _ Gb) as (f & Hlf & Pb); [discriminate|];
      rewrite Hl in Hl', Hl''; injection Hl' as <-; injection Hl'' as <-;
      exists l, o, lf, f, a, e, flag;
      repeat split; try assumption;
      [ exact (typeof_plain_object _ _ _ Hl Ho)
      | exact (typeof_plain_object _ _ _ Hlf Hf) ]
  end.
Qed.

(** X1.  [validateConfig] answers [true] exactly on the values of the
    [AppConfig] shape: a plain object whose [apiUrl] and [environment] are
    strings and whose [features] is a plain object with a boolean
    [enableFeatureX]. *)
Theorem validateConfig_accepts_exactly_well_shaped v w :
  Config.validateConfig v w = (Normal (VBool true), w)
  ↔ well_shaped (heap w) v.
Proof.
  split.
  - apply validateConfig_true_inv.
  - apply validateConfig_well_shaped.
Qed.

Lemma validateConfig_accepts_exactly_well_shaped_witness :
  well_shaped (heap Sample.with_extras) (VObject 1)
  ∧ Config.validateConfig (VObject 1) Sample.with_extras
    = (Normal (VBool true), Sample.with_extras)
  ∧ ¬ well_shaped (heap Sample.numeric_url) (VObject 1).
Proof.
  assert (well_shaped (heap Sample.with_extras) (VObject 1)) as Hs.
  { eexists 1, _, 2, _, "https://x", "y", true.
    repeat split; reflexivity. }
  split; [exact Hs|]. split.
  - exact (proj2 (validateConfig_accepts_exactly_well_shaped
                    (VObject 1) Sample.with_extras) Hs).
  - intros Hn.
    pose proof (proj2 (validateConfig_accepts_exactly_well_shaped
                         (VObject 1) Sample.numeric_url) Hn) as E.
    vm_compute in E. discriminate E.
Defined.

Lemma validateConfig_throw_inv v w e w' :
  Config.validateConfig v w = (Throw e, w') →
  e = TypeError ∧ w' = w ∧ (v = VNull ∨ null_featured (heap w) v).
Proof.
  intros H. unfold Config.validateConfig in H. js_step.
  destruct v as [| |b|n|s|l]; try discriminate H.
  - cbn [typeof_in] in H. revert H. pass_check. intros [= <- <-].
    repeat split. left; reflexivity.
  - repeat (rewrite truthy_strict_eq_string in H; case_bool_decide;
            [|discriminate H]).
    destruct (get_in (heap w) l "features") eqn:Hf; try discriminate H;
      try discriminate;
      injection H as <- <-; (split; [reflexivity|]); (split; [reflexivity|]);
      right; exists l; repeat split; assumption.
Qed.

Lemma validateConfig_null_featured v w :
  null_featured (heap w) v →
  Config.validateConfig v w = (Throw TypeError, w).
Proof.
  intros (l & -> & T & Ta & Te & Gf).
  unfold Config.validateConfig. js_step.
  rewrite T. pass_check. rewrite Ta. pass_check. rewrite Te. pass_check.
  rewrite Gf. pass_check. rewrite Gf. reflexivity.
Qed.

(** X2.  [validateConfig] throws on two kinds of argument and no other:
    [null] itself, and a plain object with string [apiUrl] and
    [environment] whose [features] is [null].  What it throws is a
    TypeError, and the world is as before. *)
Theorem validateConfig_throws_exactly v w e w' :
  Config.validateConfig v w = (Throw e, w')
  ↔ e = TypeError ∧ w' = w ∧ (v = VNull ∨ null_featured (heap w) v).
Proof.
  split; [apply validateConfig_throw_inv|].
  intros (-> & -> & [-> | Hn]).
  - reflexivity.
  - apply validateConfig_null_featured, Hn.
Qed.

Lemma validateConfig_throws_exactly_witness :
  null_featured (heap Sample.null_features) (VObject 1)
  ∧ Config.validateConfig (VObject 1) Sample.null_features
    = (Throw TypeError, Sample.null_features)
  ∧ Config.validateConfig VNull Sample.bare = (Throw TypeError, Sample.bare).
Proof.
  assert (null_featured (heap Sample.null_features) (VObject 1)) as Hn.
  { exists 1. repeat split; reflexivity. }
  split; [exact Hn|]. split.
  - apply (proj2 (validateConfig_throws_exactly
                    (VObject 1) Sample.null_features TypeError
                    Sample.null_features)).
    split; [reflexivity|]. split; [reflexivity|]. right; exact Hn.
  - apply (proj2 (validateConfig_throws_exactly
                    VNull Sample.bare TypeError Sample.bare)).
    split; [reflexivity|]. split; [reflexivity|]. left; reflexivity.
Defined.

(** X3.  Whatever its argument and its outcome, [validateConfig] (in both
    files) leaves the store and the console as they were, and its outcome
    does not depend on the console. *)
Theorem validateConfig_is_read_only v w :
  snd (Config.validateConfig v w) = w
  ∧ snd (UseConfig.validateConfig v w) = w
  ∧ ∀ c, fst (Config.validateConfig v (World (heap w) c))
         = fst (Config.validateConfig v w).
Proof.
  destruct w as [h c0]. cbn [heap].
  split; [apply (validateConfig_reads_only v h c0 c0)|].
  split; [apply (validateConfig_reads_only v h c0 c0)|].
  intros c. apply (validateConfig_reads_only v h c c0).
Qed.


(** ** The accessor of [config.ts] *)

Lemma validateConfig_normal_inv v w c w' :
  Config.validateConfig v w = (Normal c, w') → w' = w ∧ ∃ b, c = VBool b.
Proof.
  intros H.
  pose proof (validateConfig_reads_only v (heap w) (console w) (console w))
    as [_ Hs].
  destruct w as [h c0]. cbn [heap console] in Hs. rewrite H in Hs.
  cbn [snd] in Hs. split; [exact Hs|].
  unfold Config.validateConfig in H. js_step.
  destruct v as [| |b|n|s|l]; try (injection H as <- _; eexists; reflexivity);
    try discriminate H.
  repeat (rewrite truthy_strict_eq_string in H; case_bool_decide;
          [cbv beta iota in H; cbn [heap] in H
          |injection H as <- _; eexists; reflexivity]).
  destruct (get_in h l "features"); try discriminate H;
    injection H as <- _; eexists; reflexivity.
Qed.

(** The three ways the guard can end. *)
Lemma guard_outcome v w :
  (∃ c, (ret v &&. Config.validateConfig v) w = (Normal c, w)
        ∧ truthy c = true ∧ well_shaped (heap w) v)
  ∨ (∃ c, (ret v &&. Config.validateConfig v) w = (Normal c, w)
          ∧ truthy c = false)
  ∨ ((ret v &&. Config.validateConfig v) w = (Throw TypeError, w)
     ∧ null_featured (heap w) v).
Proof.
  js_step. destruct (truthy v) eqn:Hv.
  - destruct (Config.validateConfig v w) as [[c|e] w'] eqn:E.
    + destruct (validateConfig_normal_inv _ _ _ _ E) as (-> & [|] & ->).
      * left. exists (VBool true). repeat split.
        exact (validateConfig_true_inv _ _ _ E).
      * right; left. exists (VBool false). split; reflexivity.
    + destruct (validateConfig_throw_inv _ _ _ _ E) as (-> & -> & [-> | Hn]);
        [discriminate Hv|].
      right; right. split; [reflexivity | exact Hn].
  - right; left. exists v. split; [reflexivity | exact Hv].
Qed.

Lemma guard_null_featured v w :
  null_featured (heap w) v →
  (ret v &&. Config.validateConfig v) w = (Throw TypeError, w).
Proof.
  intros Hn.
  assert (truthy v = true) as Hv by (destruct Hn as (l & -> & _); reflexivity).
  js_step. rewrite Hv. apply validateConfig_null_featured, Hn.
Qed.

Lemma well_shaped_bound w wl v :
  well_shaped (heap w) v → default VUndefined (binding w wl) = v →
  binding w wl = Some v.
Proof.
  intros (l & o & lf & f & a & e & b & -> & _) Hb.
  destruct (binding w wl) as [x|]; cbn in Hb; [congruence | discriminate].
Qed.

Lemma is_default_well_shaped h v : is_default h v → well_shaped h v.
Proof.
  intros (d & df & -> & _ & Hd & Hdf).
  eexists d, _, df, _, "https://default.example.com", "default", false.
  split; [reflexivity|]. split; [exact Hd|]. split; [reflexivity|].
  split; [reflexivity|]. split; [reflexivity|]. split; [reflexivity|].
  split; [exact Hdf|]. split; reflexivity.
Qed.

(** X4.  In the browser [getConfig] throws exactly when the binding is a
    plain object with string [apiUrl] and [environment] and [null] for
    [features]; it then throws a TypeError and has changed nothing.  On
    every other binding, and without a binding, it returns. *)
Theorem getConfig_throws_exactly rt m wl w e w' :
  window rt = Some wl →
  Config.getConfig rt m w = (Throw e, w')
  ↔ e = TypeError ∧ w' = w
    ∧ ∃ v, binding w wl = Some v ∧ null_featured (heap w) v.
Proof.
  intros Hw. rewrite (getConfig_browser rt m wl w _ Hw eq_refl).
  set (v := default VUndefined (binding w wl)).
  split.
  - intros H.
    destruct (guard_outcome v w) as [(c & E & Hc & _) | [(c & E & Hc) | (E & Hn)]];
      rewrite E in H; cbn [after_guard] in H;
      try (rewrite Hc in H; discriminate H).
    injection H as <- <-.
    split; [reflexivity|]. split; [reflexivity|].
    exists v. split; [|exact Hn].
    destruct Hn as (l & Hv & _). unfold v in Hv |- *.
    destruct (binding w wl) as [x|]; cbn in Hv |- *; [reflexivity | discriminate].
  - intros (-> & -> & x & Hb & Hn).
    assert (v = x) as -> by (unfold v; rewrite Hb; reflexivity).
    rewrite (guard_null_featured x w Hn). reflexivity.
Qed.

Lemma getConfig_throws_exactly_witness :
  window Sample.browser = Some 0
  ∧ Config.getConfig Sample.browser Sample.config_module Sample.null_features
    = (Throw TypeError, Sample.null_features).
Proof.
  split; [reflexivity|].
  apply (proj2 (getConfig_throws_exactly
                  Sample.browser Sample.config_module 0 Sample.null_features
                  TypeError Sample.null_features eq_refl)).
  split; [reflexivity|]. split; [reflexivity|].
  exists (VObject 1). split; [reflexivity|].
  exists 1. repeat split; reflexivity.
Defined.


Lemma guard_reads_only v h c1 c2 :
  fst ((ret v &&. Config.validateConfig v) (World h c1))
  = fst ((ret v &&. Config.validateConfig v) (World h c2))
  ∧ snd ((ret v &&. Config.validateConfig v) (World h c1)) = World h c1.
Proof.
  js_step. destruct (truthy v).
  - apply validateConfig_reads_only.
  - split; reflexivity.
Qed.

Lemma well_shaped_after_literal (h : gmap loc object) l lf a e b :
  l ≠ lf →
  well_shaped
    (<[l := Object false (config_fields (VString a) (VString e) (VObject lf))]>
       (<[lf := Object false (features_fields (VBool b))]> h))
    (VObject l).
Proof.
  intros Hne.
  eexists l, _, lf, _, a, e, b.
  split; [reflexivity|]. split; [apply lookup_insert_eq|].
  split; [reflexivity|]. split; [reflexivity|]. split; [reflexivity|].
  split; [reflexivity|].
  split; [rewrite lookup_insert_ne by exact Hne; apply lookup_insert_eq|].
  split; reflexivity.
Qed.

(** X5.  As long as the fallback object holds what its literal put there,
    every value [getConfig] returns, in the browser or on the server, has
    the [AppConfig] shape in the store it leaves: a consumer can read
    [config.features.enableFeatureX] of the result. *)
Theorem getConfig_returns_AppConfig rt m w v w' :
  is_default (heap w) (Config.DEFAULT_CONFIG m) →
  Config.getConfig rt m w = (Normal v, w') →
  well_shaped (heap w') v.
Proof.
  intros Hd H. destruct (window rt) as [wl|] eqn:Hw.
  - rewrite (getConfig_browser rt m wl w _ Hw eq_refl) in H.
    destruct (guard_outcome (default VUndefined (binding w wl)) w)
      as [(c & E & Hc & Hs) | [(c & E & Hc) | (E & _)]];
      rewrite E in H; cbn [after_guard] in H; [rewrite Hc in H ..|].
    + injection H as <- <-. exact Hs.
    + injection H as <- <-. apply is_default_well_shaped, Hd.
    + discriminate H.
  - destruct Hd as (d & df & Hm & Hne & Hd & Hdf).
    unfold Config.getConfig in H. rewrite Hw, Hm in H.
    rewrite (config_literal_run _ _ _ _ _ _ w
               (yields_env_or rt "NEXT_PUBLIC_API_URL" d _ "apiUrl" _ _ Hd eq_refl)
               (yields_env_or rt "NODE_ENV" d _ "environment" _ _ Hd eq_refl)
               (yields_env_is_true rt "NEXT_PUBLIC_ENABLE_FEATURE_X" _)) in H.
    injection H as <- <-. cbn [heap].
    destruct (literal_locations (heap w)) as (_ & _ & Hll).
    exact (well_shaped_after_literal _ _ _ _ _ _ Hll).
Qed.

Lemma getConfig_returns_AppConfig_witness :
  is_default (heap Sample.loaded) (VObject 7)
  ∧ well_shaped
      (heap (snd (Config.getConfig (Sample.server {[ "NODE_ENV" := "test" ]})
                    Sample.config_module Sample.loaded)))
      (VObject 9).
Proof.
  assert (is_default (heap Sample.loaded) (VObject 7)) as Hd.
  { exists 7, 8. split; [reflexivity|]. split; [discriminate|].
    split; reflexivity. }
  split; [exact Hd|].
  apply (getConfig_returns_AppConfig
           (Sample.server {[ "NODE_ENV" := "test" ]})
           Sample.config_module Sample.loaded (VObject 9) _ Hd).
  vm_compute. reflexivity.
Defined.

(** X6.  In the browser [getConfig] never changes the store, whether it
    returns or throws, and a second call right after the first has the
    outcome of the first: the same object, or the same exception. *)
Theorem getConfig_browser_is_repeatable rt m wl w :
  window rt = Some wl →
  heap (snd (Config.getConfig rt m w)) = heap w
  ∧ fst (Config.getConfig rt m (snd (Config.getConfig rt m w)))
    = fst (Config.getConfig rt m w).
Proof.
  intros Hw.
  assert (∀ w1, heap w1 = heap w →
                heap (snd (Config.getConfig rt m w1)) = heap w
                ∧ fst (Config.getConfig rt m w1) = fst (Config.getConfig rt m w))
    as Hboth.
  { intros w1 Hh.
    assert (binding w1 wl = binding w wl) as Hb by (unfold binding; rewrite Hh; reflexivity).
    rewrite (getConfig_browser rt m wl w1 _ Hw eq_refl), Hb.
    rewrite (getConfig_browser rt m wl w _ Hw eq_refl).
    set (v := default VUndefined (binding w wl)).
    destruct w as [h c], w1 as [h1 c1]. cbn [heap] in Hh. subst h1.
    destruct (guard_reads_only v h c1 c) as [Hf Hs].
    destruct (guard_reads_only v h c c) as [_ Hs'].
    destruct ((ret v &&. Config.validateConfig v) (World h c1)) as [r1 x1].
    destruct ((ret v &&. Config.validateConfig v) (World h c)) as [r x].
    cbn [fst snd] in *. subst r1 x1 x.
    destruct r as [g|e]; cbn [after_guard]; [destruct (truthy g)|];
      split; reflexivity. }
  destruct (Hboth w eq_refl) as [Hheap _].
  split; [exact Hheap|]. apply Hboth, Hheap.
Qed.

Lemma getConfig_browser_is_repeatable_witness :
  window Sample.browser = Some 0
  ∧ heap (snd (Config.getConfig Sample.browser Sample.config_module
                 Sample.with_extras))
    = heap Sample.with_extras
  ∧ fst (Config.getConfig Sample.browser Sample.config_module
           (snd (Config.getConfig Sample.browser Sample.config_module
                   Sample.with_extras)))
    = fst (Config.getConfig Sample.browser Sample.config_module
             Sample.with_extras).
Proof.
  split; [reflexivity|].
  apply (getConfig_browser_is_repeatable
           Sample.browser Sample.config_module 0 Sample.with_extras).
  reflexivity.
Defined.

(** X7.  The two accessors behave alike in the browser: on every page
    [getClientConfig] of [useConfig.ts] and [getConfig] of [config.ts]
    leave the same world, and either both return the binding, which then
    has the validated shape, or both return their own module's fallback, or
    both throw the same exception. *)
Theorem accessors_agree_in_the_browser rt m1 m2 wl w :
  window rt = Some wl →
  snd (UseConfig.getClientConfig rt m2 w) = snd (Config.getConfig rt m1 w)
  ∧ match fst (Config.getConfig rt m1 w),
          fst (UseConfig.getClientConfig rt m2 w) with
    | Normal a, Normal b =>
        (a = b ∧ binding w wl = Some a ∧ well_shaped (heap w) a)
        ∨ (a = Config.DEFAULT_CONFIG m1 ∧ b = UseConfig.DEFAULT_CONFIG m2)
    | Throw e1, Throw e2 => e1 = e2
    | _, _ => False
    end.
Proof.
  intros Hw.
  rewrite (getConfig_browser rt m1 wl w _ Hw eq_refl).
  rewrite (getClientConfig_browser rt m2 wl w _ Hw eq_refl).
  destruct (guard_outcome (default VUndefined (binding w wl)) w)
    as [(c & E & Hc & Hs) | [(c & E & Hc) | (E & _)]];
    rewrite E; cbn [after_guard]; [rewrite Hc ..|]; cbn [fst snd].
  - split; [reflexivity|]. left. split; [reflexivity|].
    split; [|exact Hs]. apply well_shaped_bound; [exact Hs | reflexivity].
  - split; [reflexivity|]. right. split; reflexivity.
  - split; reflexivity.
Qed.

Lemma accessors_agree_in_the_browser_witness :
  window Sample.browser = Some 0
  ∧ snd (UseConfig.getClientConfig Sample.browser Sample.hook_module Sample.bare)
    = snd (Config.getConfig Sample.browser Sample.config_module Sample.bare)
  ∧ fst (Config.getConfig Sample.browser Sample.config_module Sample.bare)
    = Normal (VObject 7)
  ∧ fst (UseConfig.getClientConfig Sample.browser Sample.hook_module Sample.bare)
    = Normal (VObject 9).
Proof.
  split; [reflexivity|].
  destruct (accessors_agree_in_the_browser
              Sample.browser Sample.config_module Sample.hook_module 0
              Sample.bare eq_refl) as [Hs _].
  split; [exact Hs|]. split; vm_compute; reflexivity.
Defined.


(** ** The hook over a whole page session *)

Lemma default_then_nil d v : default_then d v [].
Proof. exists 0, []. split; [reflexivity | constructor]. Qed.

Lemma default_then_cons d v vs : default_then d v vs → default_then d v (d :: vs).
Proof.
  intros (n & rest & -> & Hr). exists (S n), rest. split; [reflexivity | exact Hr].
Qed.

Lemma default_then_all d v vs : Forall (eq v) vs → default_then d v vs.
Proof. intros Hr. exists 0, vs. split; [reflexivity | exact Hr]. Qed.

Lemma getClientConfig_console rt m w :
  heap (snd (UseConfig.getClientConfig rt m w)) = heap w
  ∧ (length (console (snd (UseConfig.getClientConfig rt m w)))
     ≤ length (console w) + 1)%nat.
Proof.
  destruct (window rt) as [wl|] eqn:Hw.
  - rewrite (getClientConfig_browser rt m wl w _ Hw eq_refl).
    set (v := default VUndefined (binding w wl)).
    destruct w as [h c].
    destruct (guard_reads_only v h c c) as [_ Hs].
    destruct ((ret v &&. Config.validateConfig v) (World h c)) as [r x].
    cbn [snd] in Hs. subst x.
    destruct r as [g|e]; cbn [after_guard]; [destruct (truthy g)|];
      cbn [snd say heap console]; rewrite ?length_app; cbn [length];
      (split; [reflexivity | lia]).
  - unfold UseConfig.getClientConfig. rewrite Hw. js_step.
    split; [reflexivity | lia].
Qed.

Section SessionFacts.
Variable rt : realm.
Variable m : UseConfig.module.

Lemma session_cons ev evs s :
UseConfig.session rt m (ev :: evs) s
= let '(s', r) := UseConfig.step rt m ev s in
  let '(vs, final) := UseConfig.session rt m evs s' in
  (match r with Some v => v :: vs | None => vs end, final).
Proof. reflexivity. Qed.

Lemma session_crashed evs :
∀ w, let r := UseConfig.session rt m evs (UseConfig.Crashed, w) in
     r.1 = [] ∧ console r.2.2 = console w.
Proof.
induction evs as [|ev evs IH]; intros w; [split; reflexivity|].
rewrite session_cons.
destruct ev as [| |h]; cbn [UseConfig.step].
- specialize (IH w). cbn zeta in IH.
  destruct (UseConfig.session rt m evs (UseConfig.Crashed, w)) as [vs final].
  exact IH.
- specialize (IH w). cbn zeta in IH.
  destruct (UseConfig.session rt m evs (UseConfig.Crashed, w)) as [vs final].
  exact IH.
- specialize (IH (World h (console w))). cbn zeta in IH.
  destruct (UseConfig.session rt m evs (UseConfig.Crashed, World h (console w)))
    as [vs final].
  exact IH.
Qed.

Lemma session_waiting evs :
∀ w, let r := UseConfig.session rt m evs
                (UseConfig.Live (waiting (UseConfig.DEFAULT_CONFIG m)), w) in
     (∃ v, default_then (UseConfig.DEFAULT_CONFIG m) v r.1)
     ∧ (length (console r.2.2) ≤ length (console w) + 2)%nat.
Proof.
induction evs as [|ev evs IH]; intros w.
- cbn. split; [exists VUndefined; apply default_then_nil | lia].
- rewrite session_cons. destruct ev as [| |h].
  + rewrite render_waiting. specialize (IH w). cbn zeta in IH.
    destruct (UseConfig.session rt m evs
                (UseConfig.Live (waiting (UseConfig.DEFAULT_CONFIG m)), w))
      as [vs final].
    destruct IH as [(v & Hv) Hc]. cbn [fst snd] in *.
    split; [exists v; apply default_then_cons, Hv | exact Hc].
  + destruct (getClientConfig_console rt m w) as [_ Hlen].
    destruct (UseConfig.getClientConfig rt m w) as [[v|e] w'] eqn:E.
    * rewrite (commit_waiting rt m _ w v w' E).
      pose proof (session_hydrated rt m v evs (say (hydration_notice v) w'))
        as Hh. cbn zeta in Hh.
      destruct (UseConfig.session rt m evs
                  (UseConfig.Live (hydrated v), say (hydration_notice v) w'))
        as [vs final].
      destruct Hh as (Hvs & _ & Hc). cbn [fst snd] in *.
      split; [exists v; apply default_then_all, Hvs|].
      rewrite Hc. cbn [say console]. rewrite length_app. cbn [length]. lia.
    * assert (UseConfig.step rt m UseConfig.Commit
                (UseConfig.Live (waiting (UseConfig.DEFAULT_CONFIG m)), w)
              = (UseConfig.Crashed, w', None)) as ->.
      { cbn [UseConfig.step UseConfig.commit waiting effect_pending].
        unfold UseConfig.effect, mbind at 1, js_bind, bind at 1.
        rewrite E. reflexivity. }
      pose proof (session_crashed evs w') as Hcr. cbn zeta in Hcr.
      destruct (UseConfig.session rt m evs (UseConfig.Crashed, w'))
        as [vs final].
      cbn [fst snd] in Hcr. destruct Hcr as (-> & Hc). cbn [fst snd] in *.
      split; [exists VUndefined; apply default_then_nil|].
      rewrite Hc. lia.
  + cbn [UseConfig.step]. specialize (IH (World h (console w))).
    cbn zeta in IH.
    destruct (UseConfig.session rt m evs
                (UseConfig.Live (waiting (UseConfig.DEFAULT_CONFIG m)),
                 World h (console w)))
      as [vs final].
    exact IH.
Qed.

Lemma session_unmounted evs :
∀ w, let r := UseConfig.session rt m evs (UseConfig.Live unmounted, w) in
     (∃ v, default_then (UseConfig.DEFAULT_CONFIG m) v r.1)
     ∧ (length (console r.2.2) ≤ length (console w) + 2)%nat.
Proof.
induction evs as [|ev evs IH]; intros w.
- cbn. split; [exists VUndefined; apply default_then_nil | lia].
- rewrite session_cons. destruct ev as [| |h].
  + rewrite render_unmounted.
    pose proof (session_waiting evs w) as Hw. cbn zeta in Hw.
    destruct (UseConfig.session rt m evs
                (UseConfig.Live (waiting (UseConfig.DEFAULT_CONFIG m)), w))
      as [vs final].
    destruct Hw as [(v & Hv) Hc]. cbn [fst snd] in *.
    split; [exists v; apply default_then_cons, Hv | exact Hc].
  + change (UseConfig.step rt m UseConfig.Commit (UseConfig.Live unmounted, w))
      with (UseConfig.Live unmounted, w, @None value).
    cbv beta iota zeta. specialize (IH w). cbn zeta in IH.
    destruct (UseConfig.session rt m evs (UseConfig.Live unmounted, w))
      as [vs final].
    exact IH.
  + cbn [UseConfig.step]. specialize (IH (World h (console w))).
    cbn zeta in IH.
    destruct (UseConfig.session rt m evs
                (UseConfig.Live unmounted, World h (console w)))
      as [vs final].
    exact IH.
Qed.

End SessionFacts.

(** X8.  Over any sequence of renders, commits and rewrites of the store,
    started from the mount, the values [useConfig] returns are the fallback
    object some number of times and then one and the same value for good:
    there is one change at most, and no way back. *)
Theorem useConfig_changes_its_value_once rt m evs w :
  ∃ v, default_then (UseConfig.DEFAULT_CONFIG m) v
         (UseConfig.session rt m evs (UseConfig.Live unmounted, w)).1.
Proof. exact (proj1 (session_unmounted rt m evs w)). Qed.

(** ** The display *)

Lemma get_in_lookup (h : gmap loc object) l o p v :
  h !! l = Some o → props o !! p = Some v → get_in h l p = v.
Proof. intros Hl Hp. unfold get_in. rewrite Hl, Hp. reflexivity. Qed.

(** X10.  The first render of [ConfigDisplay] shows the fallback's two
    texts and "No", without the dump and the note, whatever the page's
    binding is and whether or not there is a [window]; it calls neither
    the accessor nor [JSON.stringify] and leaves the world as it was.  So
    the markup rendered on the server and the first markup rendered in the
    browser are the same. *)
Theorem ConfigDisplay_first_render_is_the_fallback stringify m w :
  is_default (heap w) (UseConfig.DEFAULT_CONFIG m) →
  ConfigDisplay.ConfigDisplay stringify m ConfigDisplay.mounting w
  = (Normal
       (ConfigDisplay.View (VString "https://default.example.com")
                           (VString "default") (VString "No") None,
        ConfigDisplay.Memory (waiting (UseConfig.DEFAULT_CONFIG m))
                             (waiting (VBool false))),
     w).
Proof.
  intros (d & df & Hm & Hne & Hd & Hdf).
  unfold ConfigDisplay.ConfigDisplay, ConfigDisplay.mounting.
  cbn [ConfigDisplay.config_memory ConfigDisplay.client_memory].
  change (UseConfig.useConfig m unmounted)
    with (UseConfig.DEFAULT_CONFIG m, waiting (UseConfig.DEFAULT_CONFIG m)).
  change (useState (VBool false) unmounted)
    with (VBool false, Hooks (Some (VBool false)) None false).
  cbv beta iota zeta. rewrite Hm. js_step.
  rewrite (get_in_lookup _ d _ "apiUrl" _ Hd eq_refl).
  rewrite (get_in_lookup _ d _ "environment" _ Hd eq_refl).
  rewrite (get_in_lookup _ d _ "features" _ Hd eq_refl).
  cbn [get_optional]. js_step.
  rewrite (get_in_lookup _ df _ "enableFeatureX" _ Hdf eq_refl).
  reflexivity.
Qed.

Lemma ConfigDisplay_first_render_is_the_fallback_witness :
  is_default (heap Sample2.dev_page) (VObject 9)
  ∧ ConfigDisplay.ConfigDisplay Sample2.stringify Sample.hook_module
      ConfigDisplay.mounting Sample2.dev_page
    = (Normal
         (ConfigDisplay.View (VString "https://default.example.com")
                             (VString "default") (VString "No") None,
          ConfigDisplay.Memory (waiting (VObject 9)) (waiting (VBool false))),
       Sample2.dev_page).
Proof.
  assert (is_default (heap Sample2.dev_page) (VObject 9)) as Hd.
  { exists 9, 10. split; [reflexivity|]. split; [discriminate|].
    split; reflexivity. }
  split; [exact Hd|].
  exact (ConfigDisplay_first_render_is_the_fallback
           Sample2.stringify Sample.hook_module Sample2.dev_page Hd).
Defined.

(** The commit after the first render, and the render that follows, on a
    page whose binding has the validated shape. *)
Lemma ConfigDisplay_hydrates stringify rt m wl w l o lf f a e b d0 :
  window rt = Some wl →
  binding w wl = Some (VObject l) →
  heap w !! l = Some o → callable o = false →
  props o !! "apiUrl" = Some (VString a) →
  props o !! "environment" = Some (VString e) →
  props o !! "features" = Some (VObject lf) →
  heap w !! lf = Some f → callable f = false →
  props f !! "enableFeatureX" = Some (VBool b) →
  let w' := say (hydration_notice (VObject l)) (say (loaded_notice (VObject l)) w) in
  let k' := ConfigDisplay.Memory (hydrated (VObject l)) (hydrated (VBool true)) in
  ConfigDisplay.commit rt m
    (ConfigDisplay.Memory (waiting d0) (waiting (VBool false))) w
  = (Normal k', w')
  ∧ ∀ dump,
      stringify (VObject l) w' = (Normal dump, w') →
      ConfigDisplay.ConfigDisplay stringify m k' w'
      = (Normal
           (ConfigDisplay.View
              (VString a) (VString e)
              (VString (if b then "Yes" else "No"))
              (Some (dump,
                     if bool_decide (a = "https://default.example.com")
                     then ConfigDisplay.default_note
                     else ConfigDisplay.runtime_note)),
            k'),
         w').
Proof.
  intros Hw Hb Hl Hc Ha He Hf Hlf Hcf Hflag w' k'.
  assert (well_shaped (heap w) (VObject l)) as Hs.
  { exists l, o, lf, f, a, e, b. repeat split; assumption. }
  assert (UseConfig.getClientConfig rt m w
          = (Normal (VObject l), say (loaded_notice (VObject l)) w)) as G.
  { rewrite (getClientConfig_browser rt m wl w (VObject l) Hw)
      by (rewrite Hb; reflexivity).
    rewrite (guard_well_shaped _ _ Hs). reflexivity. }
  split.
  - unfold ConfigDisplay.commit.
    cbn [ConfigDisplay.config_memory ConfigDisplay.client_memory].
    cbn [UseConfig.commit waiting effect_pending].
    unfold UseConfig.effect. js_step. rewrite G.
    reflexivity.
  - intros dump Hdump.
    unfold ConfigDisplay.ConfigDisplay, k'.
    cbn [ConfigDisplay.config_memory ConfigDisplay.client_memory].
    change (UseConfig.useConfig m (hydrated (VObject l)))
      with (VObject l, hydrated (VObject l)).
    change (useState (VBool true) (hydrated (VBool true)))
      with (VBool true, hydrated (VBool true)).
    change (useState (VBool false) (hydrated (VBool true)))
      with (VBool true, hydrated (VBool true)).
    cbv beta iota zeta.
    change (useEffect [] (hydrated (VBool true))) with (hydrated (VBool true)).
    js_step. change (heap w') with (heap w).
    rewrite (get_in_lookup _ l _ "apiUrl" _ Hl Ha).
    rewrite (get_in_lookup _ l _ "environment" _ Hl He).
    rewrite (get_in_lookup _ l _ "features" _ Hl Hf).
    cbn [get_optional]. js_step. change (heap w') with (heap w).
    rewrite (get_in_lookup _ lf _ "enableFeatureX" _ Hlf Hflag).
    cbn [truthy]. rewrite Hdump. js_step. change (heap w') with (heap w).
    rewrite (get_in_lookup _ l _ "apiUrl" _ Hl Ha).
    rewrite truthy_strict_eq_string.
    destruct b; reflexivity.
Qed.

(** ** From the container's variables to the page *)

(** The world the generated program leaves, and what it holds. *)
Lemma generated_page env wl o w :
  well_formed env = true → heap w !! wl = Some o →
  ∃ prog w' l lf f,
    Script.parse (Entrypoint.config_js env) = Some prog
    ∧ Script.run wl prog w = (Normal tt, w')
    ∧ binding w' wl = Some (VObject l)
    ∧ heap w' !! l
      = Some (Object false
                (config_fields
                   (VString (or_else (env !! "API_URL") "https://default.example.com"))
                   (VString (or_else (env !! "ENVIRONMENT") "production"))
                   (VObject lf)))
    ∧ heap w' !! lf = Some f ∧ callable f = false
    ∧ props f !! "enableFeatureX"
      = Some (VBool (bool_decide (env !! "ENABLE_FEATURE_X" = Some "true"))).
Proof.
  intros Hwf Hwl.
  destruct (literal_locations (heap w)) as (Hl & Hlf & Hne).
  set (l := fresh (dom (heap w))) in *.
  set (lf := fresh ({[l]} ∪ dom (heap w))) in *.
  assert (wl ≠ l) as Hwl_l by (intros ->; congruence).
  assert (wl ≠ lf) as Hwl_lf by (intros ->; congruence).
  eexists _, _, l, lf, _.
  split; [apply parse_config_js, Hwf|].
  split; [apply (run_generated wl o), Hwl|].
  cbn [say heap console]. fold l lf. split; [|split; [|split; [|split]]].
  - apply (binding_heap_define _ wl o).
    rewrite !lookup_insert_ne by congruence. exact Hwl.
  - rewrite heap_define_other by exact Hwl_l. apply lookup_insert_eq.
  - rewrite heap_define_other by exact Hwl_lf.
    rewrite lookup_insert_ne by exact Hne. apply lookup_insert_eq.
  - reflexivity.
  - reflexivity.
Qed.

(** X12.  For well-formed variables, the binding that the generated file
    makes always passes the validator: in the page that ran the file,
    [getConfig] returns that binding, never the fallback. *)
Theorem generated_config_is_accepted env rt m wl o w :
  well_formed env = true →
  window rt = Some wl →
  heap w !! wl = Some o →
  ∃ prog w' l,
    Script.parse (Entrypoint.config_js env) = Some prog
    ∧ Script.run wl prog w = (Normal tt, w')
    ∧ binding w' wl = Some (VObject l)
    ∧ Config.getConfig rt m w'
      = (Normal (VObject l), say (loaded_notice (VObject l)) w').
Proof.
  intros Hwf Hw Hwl.
  destruct (generated_page env wl o w Hwf Hwl)
    as (prog & w' & l & lf & f & Hp & Hr & Hb & Hl & Hlf & Hc & Hflag).
  exists prog, w', l. split; [exact Hp|]. split; [exact Hr|].
  split; [exact Hb|].
  rewrite (getConfig_browser rt m wl w' (VObject l) Hw) by (rewrite Hb; reflexivity).
  rewrite guard_well_shaped; [reflexivity|].
  eexists l, _, lf, f, _, _, _.
  split; [reflexivity|]. split; [exact Hl|]. split; [reflexivity|].
  split; [reflexivity|]. split; [reflexivity|]. split; [reflexivity|].
  split; [exact Hlf|]. split; [exact Hc | exact Hflag].
Qed.

Lemma generated_config_is_accepted_witness :
  well_formed Sample.dev_variables = true
  ∧ ∃ prog w' l,
      Script.parse (Entrypoint.config_js Sample.dev_variables) = Some prog
      ∧ Script.run 0 prog Sample.bare = (Normal tt, w')
      ∧ binding w' 0 = Some (VObject l)
      ∧ Config.getConfig Sample.browser Sample.config_module w'
        = (Normal (VObject l), say (loaded_notice (VObject l)) w').
Proof.
  split; [reflexivity|].
  exact (generated_config_is_accepted Sample.dev_variables Sample.browser
           Sample.config_module 0 (Object false ∅) Sample.bare
           eq_refl eq_refl eq_refl).
Defined.

(** X13.  For well-formed variables, once the generated file has run and
    the component has hydrated, the display shows the variables' texts (or
    the script's defaults) and "Yes" exactly when the flag variable is
    [true]; its note reads "Using default configuration (runtime config
    not loaded)" exactly when the address shown is
    [https://default.example.com], so also when [API_URL] is unset and the
    runtime configuration was loaded all the same. *)
Theorem display_of_generated_config stringify env rt m wl o w d0 :
  well_formed env = true →
  window rt = Some wl →
  heap w !! wl = Some o →
  ∃ prog w1 l k2 w2,
    Script.parse (Entrypoint.config_js env) = Some prog
    ∧ Script.run wl prog w = (Normal tt, w1)
    ∧ ConfigDisplay.commit rt m
        (ConfigDisplay.Memory (waiting d0) (waiting (VBool false))) w1
      = (Normal k2, w2)
    ∧ ∀ dump,
        stringify (VObject l) w2 = (Normal dump, w2) →
        ConfigDisplay.ConfigDisplay stringify m k2 w2
        = (Normal
             (ConfigDisplay.View
                (VString (or_else (env !! "API_URL") "https://default.example.com"))
                (VString (or_else (env !! "ENVIRONMENT") "production"))
                (VString (if bool_decide (env !! "ENABLE_FEATURE_X" = Some "true")
                          then "Yes" else "No"))
                (Some (dump,
                       if bool_decide
                            (or_else (env !! "API_URL") "https://default.example.com"
                             = "https://default.example.com")
                       then ConfigDisplay.default_note
                       else ConfigDisplay.runtime_note)),
              k2),
           w2).
Proof.
  intros Hwf Hw Hwl.
  destruct (generated_page env wl o w Hwf Hwl)
    as (prog & w1 & l & lf & f & Hp & Hr & Hb & Hl & Hlf & Hc & Hflag).
  destruct (ConfigDisplay_hydrates stringify rt m wl w1 l _ lf f _ _ _ d0
              Hw Hb Hl eq_refl eq_refl eq_refl eq_refl Hlf Hc Hflag)
    as [Hcommit Hrender].
  eexists prog, w1, l, _, _.
  split; [exact Hp|]. split; [exact Hr|]. split; [exact Hcommit|].
  exact Hrender.
Qed.

Lemma display_of_generated_config_witness :
  well_formed Sample.no_variables = true
  ∧ ∃ prog w1 l k2 w2,
      Script.parse (Entrypoint.config_js Sample.no_variables) = Some prog
      ∧ Script.run 0 prog Sample2.fresh_page = (Normal tt, w1)
      ∧ ConfigDisplay.commit Sample.browser Sample.hook_module
          (ConfigDisplay.Memory (waiting (VObject 9)) (waiting (VBool false))) w1
        = (Normal k2, w2)
      ∧ ∀ dump,
          Sample2.stringify (VObject l) w2 = (Normal dump, w2) →
          ConfigDisplay.ConfigDisplay Sample2.stringify Sample.hook_module k2 w2
          = (Normal
               (ConfigDisplay.View
                  (VString "https://default.example.com")
                  (VString "production") (VString "No")
                  (Some (dump, ConfigDisplay.default_note)),
                k2),
             w2).
Proof.
  split; [reflexivity|].
  exact (display_of_generated_config Sample2.stringify Sample.no_variables
           Sample.browser Sample.hook_module 0 (Object false ∅)
           Sample2.fresh_page (VObject 9) eq_refl eq_refl eq_refl).
Defined.

(** X16.  A variable set to the empty text gives the same file, and the
    same summary, as the variable unset; this holds for each variable, and
    for any other name, which the script does not read. *)
Theorem empty_variable_is_as_unset env name :
  Entrypoint.config_js (<[name := ""]> env)
  = Entrypoint.config_js (delete name env)
  ∧ Entrypoint.stdout (<[name := ""]> env)
    = Entrypoint.stdout (delete name env).
Proof.
  assert (∀ n word,
            Entrypoint.expand (<[name := ""]> env) n word
            = Entrypoint.expand (delete name env) n word) as E.
  { intros n word. unfold Entrypoint.expand.
    destruct (decide (name = n)) as [->|Hne].
    - rewrite lookup_insert_eq, lookup_delete_eq. reflexivity.
    - rewrite lookup_insert_ne, lookup_delete_ne by exact Hne. reflexivity. }
  unfold Entrypoint.config_js, Entrypoint.stdout. rewrite !E.
  split; reflexivity.
Qed.

(** ** Loading [config.ts] *)

(** X17.  Loading [config.ts] creates the fallback as a new object with the
    literal's fields, leaves every object that existed as it was, and
    writes one console line when there is a [window] and none on the
    server. *)
Theorem load_creates_the_fallback rt w :
  ∃ m w',
    Config.load rt w = (Normal m, w')
    ∧ heap w ⊆ heap w'
    ∧ is_default (heap w') (Config.DEFAULT_CONFIG m)
    ∧ (∃ d, Config.DEFAULT_CONFIG m = VObject d ∧ heap w !! d = None)
    ∧ console w'
      = (console w
         ++ if has_window rt
            then [Entry Log [VString "Config module loaded on client side"]]
            else [])%list.
Proof.
  unfold Config.load, Config.DEFAULT_CONFIG_literal.
  unfold mbind at 1, js_bind, bind at 1.
  rewrite (config_literal_run _ _ _ _ _ _ w
             (yields_ret _ _) (yields_ret _ _) (yields_ret _ _)).
  destruct (literal_locations (heap w)) as (Hl & Hlf & Hne).
  set (l := fresh (dom (heap w))) in *.
  set (lf := fresh ({[l]} ∪ dom (heap w))) in *.
  assert (is_default
            (<[l := Object false
                      (config_fields (VString "https://default.example.com")
                                     (VString "default") (VObject lf))]>
               (<[lf := Object false (features_fields (VBool false))]> (heap w)))
            (VObject l)) as Hd.
  { exists l, lf. split; [reflexivity|]. split; [exact Hne|]. split.
    - apply lookup_insert_eq.
    - rewrite lookup_insert_ne by exact Hne. apply lookup_insert_eq. }
  destruct (has_window rt); js_step; eexists _, _; (split; [reflexivity|]);
    cbn [heap console Config.DEFAULT_CONFIG].
  - split; [apply literal_extends|]. split; [exact Hd|].
    split; [exists l; split; [reflexivity | exact Hl] | reflexivity].
  - split; [apply literal_extends|]. split; [exact Hd|].
    split; [exists l; split; [reflexivity | exact Hl]
           | rewrite app_nil_r; reflexivity].
Qed.

(** ** The fallback is one object *)

(** X18.  In the browser [getConfig] hands out the fallback object itself,
    neither a copy nor a frozen object: when a caller assigns to a property
    of the result it got on a page without binding, the next call returns
    the same object, and the object carries the assignment. *)
Theorem fallback_is_shared rt m wl w d o p x :
  window rt = Some wl →
  binding w wl = None →
  Config.DEFAULT_CONFIG m = VObject d →
  heap w !! d = Some o →
  d ≠ wl →
  let w1 := snd (Config.getConfig rt m w) in
  let w2 := snd (define d p x w1) in
  fst (Config.getConfig rt m w) = Normal (VObject d)
  ∧ fst (Config.getConfig rt m w2) = Normal (VObject d)
  ∧ get_in (heap w2) d p = x.
Proof.
  intros Hw Hb Hm Hd Hne w1 w2.
  assert (Config.getConfig rt m w = (Normal (VObject d), say fallback_warning w))
    as E1.
  { rewrite (getConfig_browser rt m wl w VUndefined Hw) by (rewrite Hb; reflexivity).
    rewrite guard_absent, Hm. reflexivity. }
  assert (heap w2 = heap_define d p x (heap w)) as Hh
    by (unfold w2, w1; rewrite E1; reflexivity).
  assert (binding w2 wl = None) as Hb2.
  { unfold binding in Hb |- *. rewrite Hh.
    rewrite heap_define_other by exact Hne. exact Hb. }
  split; [rewrite E1; reflexivity|]. split.
  - rewrite (getConfig_browser rt m wl w2 VUndefined Hw) by (rewrite Hb2; reflexivity).
    rewrite guard_absent, Hm. reflexivity.
  - rewrite Hh. apply (get_in_heap_define _ d o), Hd.
Qed.

Lemma fallback_is_shared_witness :
  binding Sample2.fresh_page 0 = None
  ∧ fst (Config.getConfig Sample.browser (Config.Module_ (VObject 9))
           (snd (define 9 "apiUrl" (VString "https://elsewhere")
                   (snd (Config.getConfig Sample.browser
                           (Config.Module_ (VObject 9)) Sample2.fresh_page)))))
    = Normal (VObject 9)
  ∧ get_in
      (heap (snd (define 9 "apiUrl" (VString "https://elsewhere")
                    (snd (Config.getConfig Sample.browser
                            (Config.Module_ (VObject 9)) Sample2.fresh_page)))))
      9 "apiUrl"
    = VString "https://elsewhere".
Proof.
  split; [reflexivity|].
  exact (proj2 (fallback_is_shared Sample.browser (Config.Module_ (VObject 9)) 0
                  Sample2.fresh_page 9
                  (Object false
                     (config_fields (VString "https://default.example.com")
                                    (VString "default") (VObject 10)))
                  "apiUrl" (VString "https://elsewhere")
                  eq_refl eq_refl eq_refl eq_refl ltac:(discriminate))).
Defined.

(** ** The accessor in the browser, continued *)

(** C3.  On the page whose binding is [{apiUrl: "https://api.example.com",
    environment: "staging", features: null}], a binding that is present
    and has no feature-flag mapping, [getConfig] does not return the
    fallback: the validator passes [typeof config.features === 'object']
    and the read of [enableFeatureX] through [null] throws a TypeError. *)
Theorem getConfig_throws_instead_of_defaulting :
  binding Sample2.null_mapping 0 = Some (VObject 1)
  ∧ field (heap Sample2.null_mapping) (VObject 1) "features" = VNull
  ∧ Config.getConfig Sample.browser Sample.config_module Sample2.null_mapping
    = (Throw TypeError, Sample2.null_mapping)
  ∧ fst (Config.getConfig Sample.browser Sample.config_module
           Sample2.null_mapping)
    ≠ Normal (Config.DEFAULT_CONFIG Sample.config_module).
Proof.
  assert (Config.getConfig Sample.browser Sample.config_module
            Sample2.null_mapping
          = (Throw TypeError, Sample2.null_mapping)) as E.
  { rewrite (getConfig_browser _ _ 0 _ (VObject 1)) by reflexivity.
    rewrite guard_null_featured; [reflexivity|].
    exists 1. repeat split; reflexivity. }
  split; [reflexivity|]. split; [reflexivity|]. split; [exact E|].
  rewrite E. discriminate.
Qed.

(** C9, amended.  The accessor falls back exactly when it returns on a
    page whose binding is absent or is not of the validated shape (a
    binding of that shape is handed on, by C4).  Every such call returns
    the fallback and writes exactly one warning, with the one fixed text
    "Invalid or missing runtime config, using fallback": the same for an
    absent binding, for an ill-typed one, for a function, for [null], for
    a number. *)
Theorem fallback_writes_one_fixed_warning rt m wl w r :
  window rt = Some wl →
  ¬ well_shaped (heap w) (default VUndefined (binding w wl)) →
  fst (Config.getConfig rt m w) = Normal r →
  Config.getConfig rt m w
  = (Normal (Config.DEFAULT_CONFIG m), say fallback_warning w)
  ∧ emitted (Config.getConfig rt m) w = [fallback_warning].
Proof.
  intros Hw Hns Hr.
  assert (Config.getConfig rt m w
          = (Normal (Config.DEFAULT_CONFIG m), say fallback_warning w)) as E.
  { rewrite (getConfig_browser rt m wl w _ Hw eq_refl) in Hr |- *.
    destruct (guard_outcome (default VUndefined (binding w wl)) w)
      as [(c & G & _ & Hs) | [(c & G & Hc) | (G & _)]].
    - contradiction.
    - rewrite G. cbn [after_guard]. rewrite Hc. reflexivity.
    - rewrite G in Hr. discriminate Hr. }
  split; [exact E|].
  unfold emitted. rewrite E. cbn [snd say console].
  rewrite drop_app_length. reflexivity.
Qed.

Lemma fallback_writes_one_fixed_warning_witness :
  (¬ well_shaped (heap Sample.bare) (default VUndefined (binding Sample.bare 0))
   ∧ emitted (Config.getConfig Sample.browser Sample.config_module) Sample.bare
     = [fallback_warning])
  ∧ (¬ well_shaped (heap Sample.without_features)
         (default VUndefined (binding Sample.without_features 0))
     ∧ emitted (Config.getConfig Sample.browser Sample.config_module)
         Sample.without_features
       = [fallback_warning])
  ∧ (¬ well_shaped (heap Sample2.callable_binding)
         (default VUndefined (binding Sample2.callable_binding 0))
     ∧ Config.getConfig Sample.browser Sample.config_module
         Sample2.callable_binding
       = (Normal (VObject 7), say fallback_warning Sample2.callable_binding)
     ∧ emitted (Config.getConfig Sample.browser Sample.config_module)
         Sample2.callable_binding
       = [fallback_warning]).
Proof.
  assert (∀ w, fst (Config.validateConfig
                      (default VUndefined (binding w 0)) w)
               = Normal (VBool false) →
               ¬ well_shaped (heap w) (default VUndefined (binding w 0)))
    as Hno.
  { intros w Hv Hs. rewrite (validateConfig_well_shaped _ _ Hs) in Hv.
    discriminate Hv. }
  assert (¬ well_shaped (heap Sample.bare)
            (default VUndefined (binding Sample.bare 0))) as H1
    by (apply Hno; vm_compute; reflexivity).
  assert (¬ well_shaped (heap Sample.without_features)
            (default VUndefined (binding Sample.without_features 0))) as H2
    by (apply Hno; vm_compute; reflexivity).
  assert (¬ well_shaped (heap Sample2.callable_binding)
            (default VUndefined (binding Sample2.callable_binding 0))) as H3
    by (apply Hno; vm_compute; reflexivity).
  split; [|split].
  - split; [exact H1|].
    apply (fallback_writes_one_fixed_warning
             Sample.browser Sample.config_module 0 Sample.bare (VObject 7)
             eq_refl H1).
    vm_compute. reflexivity.
  - split; [exact H2|].
    apply (fallback_writes_one_fixed_warning
             Sample.browser Sample.config_module 0 Sample.without_features
             (VObject 7) eq_refl H2).
    vm_compute. reflexivity.
  - split; [exact H3|].
    apply (fallback_writes_one_fixed_warning
             Sample.browser Sample.config_module 0 Sample2.callable_binding
             (VObject 7) eq_refl H3).
    vm_compute. reflexivity.
Defined.


(** ** The hook's effect, once or twice per mount *)

Lemma effect_run rt m k w :
  UseConfig.effect rt m k w
  = match UseConfig.getClientConfig rt m w with
    | (Normal v, w') => (Normal (set_state v k), say (hydration_notice v) w')
    | (Throw e, w') => (Throw e, w')
    end.
Proof.
  unfold UseConfig.effect. unfold mbind at 1, js_bind, bind at 1.
  destruct (UseConfig.getClientConfig rt m w) as [[v|e] w']; reflexivity.
Qed.

(** One run of the effect adds two entries at most; when it returns, the
    state cell holds what the accessor returned. *)
Lemma effect_bound rt m k w :
  (length (console (snd (UseConfig.effect rt m k w))) ≤ length (console w) + 2)%nat
  ∧ match fst (UseConfig.effect rt m k w) with
    | Normal k' => ∃ v, k' = set_state v k
    | Throw _ => True
    end.
Proof.
  rewrite effect_run.
  destruct (getClientConfig_console rt m w) as [_ Hlen].
  destruct (UseConfig.getClientConfig rt m w) as [[v|e] w']; cbn [fst snd] in *.
  - split; [|exists v; reflexivity].
    cbn [say console]. rewrite length_app. cbn [length]. lia.
  - split; [lia | exact I].
Qed.

Section StrictFacts.
Variable strict : bool.
Variable rt : realm.
Variable m : UseConfig.module.

Lemma strict_session_cons ev evs s :
Strict.session strict rt m (ev :: evs) s
= let '(s', r) := Strict.step strict rt m ev s in
  let '(vs, final) := Strict.session strict rt m evs s' in
  (match r with Some v => v :: vs | None => vs end, final).
Proof. reflexivity. Qed.

(** With no effect waiting, and after a crash, no event writes to the
  console or arms the effect again. *)
Lemma strict_step_settled ev i w :
Strict.settled i →
∃ i' w' r, Strict.step strict rt m ev (i, w) = (i', w', r)
           ∧ Strict.settled i' ∧ console w' = console w.
Proof.
intros Hi. destruct i as [k|]; destruct ev as [| |h]; cbn [Strict.step UseConfig.step].
- destruct Hi as [Hp Hd]. destruct k as [cell deps pending].
  cbn [effect_pending effect_deps] in Hp, Hd. subst pending deps.
  unfold UseConfig.useConfig, useState, useEffect.
  cbn [state_cell effect_deps effect_pending].
  destruct cell as [v|]; cbn; eexists _, _, _; (split; [reflexivity|]);
    split; try reflexivity; split; reflexivity.
- destruct Hi as [Hp Hd].
  unfold Strict.commit, UseConfig.commit. rewrite Hp.
  destruct strict; eexists _, _, _; (split; [reflexivity|]);
    (split; [split; assumption | reflexivity]).
- eexists _, _, _. split; [reflexivity|]. split; [exact Hi | reflexivity].
- eexists _, _, _. split; [reflexivity|]. split; [exact I | reflexivity].
- eexists _, _, _. split; [reflexivity|]. split; [exact I | reflexivity].
- eexists _, _, _. split; [reflexivity|]. split; [exact I | reflexivity].
Qed.

Lemma strict_session_settled evs :
∀ i w, Strict.settled i →
       console (Strict.session strict rt m evs (i, w)).2.2 = console w.
Proof.
induction evs as [|ev evs IH]; intros i w Hi; [reflexivity|].
rewrite strict_session_cons.
destruct (strict_step_settled ev i w Hi) as (i' & w' & r & -> & Hi' & Hc).
cbv beta iota zeta. specialize (IH i' w' Hi').
destruct (Strict.session strict rt m evs (i', w')) as [vs final].
cbn [fst snd] in *. congruence.
Qed.

(** The commit that finds the effect waiting. *)
Lemma strict_commit_waiting d w :
∃ i' w',
  Strict.step strict rt m UseConfig.Commit (UseConfig.Live (waiting d), w)
  = (i', w', None)
  ∧ Strict.settled i'
  ∧ (length (console w') ≤ length (console w) + Strict.entries_per_mount strict)%nat.
Proof.
cbn [Strict.step]. unfold Strict.commit, UseConfig.commit.
cbn [waiting effect_pending state_cell effect_deps].
set (k0 := Hooks (Some d) (Some []) false).
destruct (effect_bound rt m k0 w) as [Hlen Hk].
destruct strict; unfold Strict.entries_per_mount.
- unfold mbind at 1, js_bind, bind at 1.
  destruct (UseConfig.effect rt m k0 w) as [[k1|e] w1]; cbn [fst snd] in *.
  + destruct Hk as (v & ->).
    destruct (effect_bound rt m (set_state v k0) w1) as [Hlen2 Hk2].
    destruct (UseConfig.effect rt m (set_state v k0) w1) as [[k2|e] w2];
      cbn [fst snd] in *.
    * destruct Hk2 as (v2 & ->). eexists _, _. split; [reflexivity|].
      split; [split; reflexivity | lia].
    * eexists _, _. split; [reflexivity|]. split; [exact I | lia].
  + eexists _, _. split; [reflexivity|]. split; [exact I | lia].
- destruct (UseConfig.effect rt m k0 w) as [[k1|e] w1]; cbn [fst snd] in *.
  + destruct Hk as (v & ->). eexists _, _. split; [reflexivity|].
    split; [split; reflexivity | lia].
  + eexists _, _. split; [reflexivity|]. split; [exact I | lia].
Qed.

Lemma strict_session_waiting evs :
∀ d w,
  (length (console (Strict.session strict rt m evs
                      (UseConfig.Live (waiting d), w)).2.2)
   ≤ length (console w) + Strict.entries_per_mount strict)%nat.
Proof.
induction evs as [|ev evs IH]; intros d w; [cbn; lia|].
rewrite strict_session_cons. destruct ev as [| |h].
- change (Strict.step strict rt m UseConfig.Render
            (UseConfig.Live (waiting d), w))
    with (UseConfig.Live (waiting d), w, Some d).
  cbv beta iota zeta. specialize (IH d w).
  destruct (Strict.session strict rt m evs (UseConfig.Live (waiting d), w))
    as [vs final].
  exact IH.
- destruct (strict_commit_waiting d w) as (i' & w' & -> & Hi' & Hlen).
  cbv beta iota zeta. pose proof (strict_session_settled evs i' w' Hi') as Hc.
  destruct (Strict.session strict rt m evs (i', w')) as [vs final].
  cbn [fst snd] in *. rewrite Hc. exact Hlen.
- change (Strict.step strict rt m (UseConfig.Interfere h)
            (UseConfig.Live (waiting d), w))
    with (UseConfig.Live (waiting d), World h (console w), @None value).
  cbv beta iota zeta. specialize (IH d (World h (console w))).
  destruct (Strict.session strict rt m evs
              (UseConfig.Live (waiting d), World h (console w)))
    as [vs final].
  exact IH.
Qed.

Lemma strict_session_unmounted evs :
∀ w,
  (length (console (Strict.session strict rt m evs
                      (UseConfig.Live unmounted, w)).2.2)
   ≤ length (console w) + Strict.entries_per_mount strict)%nat.
Proof.
induction evs as [|ev evs IH]; intros w; [cbn; lia|].
rewrite strict_session_cons. destruct ev as [| |h].
- change (Strict.step strict rt m UseConfig.Render (UseConfig.Live unmounted, w))
    with (UseConfig.Live (waiting (UseConfig.DEFAULT_CONFIG m)), w,
          Some (UseConfig.DEFAULT_CONFIG m)).
  cbv beta iota zeta. pose proof (strict_session_waiting evs (UseConfig.DEFAULT_CONFIG m) w) as Hw.
  destruct (Strict.session strict rt m evs
              (UseConfig.Live (waiting (UseConfig.DEFAULT_CONFIG m)), w))
    as [vs final].
  exact Hw.
- assert (Strict.step strict rt m UseConfig.Commit (UseConfig.Live unmounted, w)
          = (UseConfig.Live unmounted, w, None)) as ->
    by (destruct strict; reflexivity).
  cbv beta iota zeta. specialize (IH w).
  destruct (Strict.session strict rt m evs (UseConfig.Live unmounted, w))
    as [vs final].
  exact IH.
- change (Strict.step strict rt m (UseConfig.Interfere h)
            (UseConfig.Live unmounted, w))
    with (UseConfig.Live unmounted, World h (console w), @None value).
  cbv beta iota zeta. specialize (IH (World h (console w))).
  destruct (Strict.session strict rt m evs
              (UseConfig.Live unmounted, World h (console w)))
    as [vs final].
  exact IH.
Qed.

End StrictFacts.

(** X9.  The hook's effect runs once per mount, and twice in a development
    build under StrictMode; it never runs again.  So over any sequence of
    renders, commits and rewrites of the store after the mount, however
    long, the hook adds at most two console entries (the accessor's
    diagnostic and the hydration notice), and at most four under
    StrictMode. *)
Theorem useConfig_console_is_bounded strict rt m evs w :
  (length (console (Strict.session strict rt m evs
                      (UseConfig.Live unmounted, w)).2.2)
   ≤ length (console w) + Strict.entries_per_mount strict)%nat
  ∧ Strict.session false rt m evs (UseConfig.Live unmounted, w)
    = UseConfig.session rt m evs (UseConfig.Live unmounted, w).
Proof.
  split; [apply strict_session_unmounted|].
  generalize (UseConfig.Live unmounted, w). clear w.
  induction evs as [|ev evs IH]; intros s; [reflexivity|].
  rewrite strict_session_cons. cbn [UseConfig.session].
  assert (Strict.step false rt m ev s = UseConfig.step rt m ev s) as ->.
  { destruct s as [[k|] w0]; destruct ev; reflexivity. }
  destruct (UseConfig.step rt m ev s) as [s' r]. rewrite IH. reflexivity.
Qed.

(** Both bounds are met on a page with a valid binding. *)
Example console_bounds_are_met :
  length (console (Strict.session false Sample.browser Sample.hook_module
                     [UseConfig.Render; UseConfig.Commit; UseConfig.Render;
                      UseConfig.Commit]
                     (UseConfig.Live unmounted, Sample.with_extras)).2.2)
  = 2
  ∧ length (console (Strict.session true Sample.browser Sample.hook_module
                       [UseConfig.Render; UseConfig.Commit; UseConfig.Render;
                        UseConfig.Commit]
                       (UseConfig.Live unmounted, Sample.with_extras)).2.2)
    = 4.
Proof. split; vm_compute; reflexivity. Qed.


(** ** The display, whatever [JSON.stringify] does *)

(** X11.  On a page whose binding has the validated shape, the commit that
    follows the first render stores the binding and sets [isClient].  The
    next render hands the binding to [JSON.stringify]: when that throws
    (a binding with a cyclic extra field, say), the render throws the same
    exception; when it returns, leaving the binding's [apiUrl] as it was,
    the render shows the binding's [apiUrl] and [environment], "Yes" or
    "No" after its flag, the dump, and a note that reads "Using default
    configuration (runtime config not loaded)" exactly when the binding's
    [apiUrl] is the fallback's URL. *)
Theorem ConfigDisplay_shows_the_binding stringify rt m wl w l o lf f a e b d0 :
  window rt = Some wl →
  binding w wl = Some (VObject l) →
  heap w !! l = Some o → callable o = false →
  props o !! "apiUrl" = Some (VString a) →
  props o !! "environment" = Some (VString e) →
  props o !! "features" = Some (VObject lf) →
  heap w !! lf = Some f → callable f = false →
  props f !! "enableFeatureX" = Some (VBool b) →
  let w' := say (hydration_notice (VObject l)) (say (loaded_notice (VObject l)) w) in
  let k' := ConfigDisplay.Memory (hydrated (VObject l)) (hydrated (VBool true)) in
  ConfigDisplay.commit rt m
    (ConfigDisplay.Memory (waiting d0) (waiting (VBool false))) w
  = (Normal k', w')
  ∧ match stringify (VObject l) w' with
    | (Throw err, w1) =>
        ConfigDisplay.ConfigDisplay stringify m k' w' = (Throw err, w1)
    | (Normal dump, w1) =>
        get_in (heap w1) l "apiUrl" = VString a →
        ConfigDisplay.ConfigDisplay stringify m k' w'
        = (Normal
             (ConfigDisplay.View
                (VString a) (VString e)
                (VString (if b then "Yes" else "No"))
                (Some (dump,
                       if bool_decide (a = "https://default.example.com")
                       then ConfigDisplay.default_note
                       else ConfigDisplay.runtime_note)),
              k'),
           w1)
    end.
Proof.
  intros Hw Hb Hl Hc Ha He Hf Hlf Hcf Hflag w' k'.
  split.
  - exact (proj1 (ConfigDisplay_hydrates stringify rt m wl w l o lf f a e b d0
                    Hw Hb Hl Hc Ha He Hf Hlf Hcf Hflag)).
  - unfold ConfigDisplay.ConfigDisplay, k'.
    cbn [ConfigDisplay.config_memory ConfigDisplay.client_memory].
    change (UseConfig.useConfig m (hydrated (VObject l)))
      with (VObject l, hydrated (VObject l)).
    change (useState (VBool false) (hydrated (VBool true)))
      with (VBool true, hydrated (VBool true)).
    cbv beta iota zeta.
    change (useEffect [] (hydrated (VBool true))) with (hydrated (VBool true)).
    js_step. change (heap w') with (heap w).
    rewrite (get_in_lookup _ l _ "apiUrl" _ Hl Ha).
    rewrite (get_in_lookup _ l _ "environment" _ Hl He).
    rewrite (get_in_lookup _ l _ "features" _ Hl Hf).
    cbn [get_optional]. js_step. change (heap w') with (heap w).
    rewrite (get_in_lookup _ lf _ "enableFeatureX" _ Hlf Hflag).
    cbn [truthy].
    destruct (stringify (VObject l) w') as [[dump|err] w1]; [|reflexivity].
    intros Ga. js_step. rewrite Ga, truthy_strict_eq_string.
    destruct b; reflexivity.
Qed.

Lemma ConfigDisplay_shows_the_binding_witness :
  binding Sample2.dev_page 0 = Some (VObject 1)
  ∧ ConfigDisplay.ConfigDisplay Sample2.stringify Sample.hook_module
      (ConfigDisplay.Memory (hydrated (VObject 1)) (hydrated (VBool true)))
      (say (hydration_notice (VObject 1))
         (say (loaded_notice (VObject 1)) Sample2.dev_page))
    = (Normal
         (ConfigDisplay.View
            (VString "https://dev.example.com") (VString "development")
            (VString "Yes")
            (Some (VString "{...}", ConfigDisplay.runtime_note)),
          ConfigDisplay.Memory (hydrated (VObject 1)) (hydrated (VBool true))),
       say (hydration_notice (VObject 1))
         (say (loaded_notice (VObject 1)) Sample2.dev_page))
  ∧ ConfigDisplay.ConfigDisplay Sample2.stringify_cyclic Sample.hook_module
      (ConfigDisplay.Memory (hydrated (VObject 1)) (hydrated (VBool true)))
      (say (hydration_notice (VObject 1))
         (say (loaded_notice (VObject 1)) Sample2.dev_page))
    = (Throw TypeError,
       say (hydration_notice (VObject 1))
         (say (loaded_notice (VObject 1)) Sample2.dev_page)).
Proof.
  split; [reflexivity|]. split.
  - exact (proj2 (ConfigDisplay_shows_the_binding
                    Sample2.stringify Sample.browser Sample.hook_module 0
                    Sample2.dev_page 1
                    (Object false
                       (config_fields (VString "https://dev.example.com")
                                      (VString "development") (VObject 2)))
                    2 (Object false (features_fields (VBool true)))
                    "https://dev.example.com" "development" true (VObject 9)
                    eq_refl eq_refl eq_refl eq_refl eq_refl eq_refl eq_refl
                    eq_refl eq_refl eq_refl) eq_refl).
  - exact (proj2 (ConfigDisplay_shows_the_binding
                    Sample2.stringify_cyclic Sample.browser Sample.hook_module 0
                    Sample2.dev_page 1
                    (Object false
                       (config_fields (VString "https://dev.example.com")
                                      (VString "development") (VObject 2)))
                    2 (Object false (features_fields (VBool true)))
                    "https://dev.example.com" "development" true (VObject 9)
                    eq_refl eq_refl eq_refl eq_refl eq_refl eq_refl eq_refl
                    eq_refl eq_refl eq_refl)).
Defined.

(** ** The entrypoint as a script *)

Lemma start_run env argv mc :
  Container.start env argv mc
  = Container.step (Container.Exec argv)
      (Container.Machine
         (if decide (Container.config_path ∈ Container.locked mc)
          then Container.files mc
          else <[Container.config_path := Entrypoint.config_js env]>
                 (Container.files mc))
         (Container.locked mc) (Container.refused mc)
         (Container.printed mc ++ Container.summary env)%list).
Proof.
  unfold Container.start, Container.entrypoint, Container.summary.
  cbn [Container.sh Container.step Container.files Container.locked
       Container.refused Container.printed].
  destruct (decide (Container.config_path ∈ Container.locked mc));
    cbn [Container.sh Container.step Container.files Container.locked
         Container.refused Container.printed];
    rewrite <- !app_assoc;
    destruct argv as [|program args]; cbn [Container.step app Container.refused];
    [reflexivity | destruct (Container.refused mc !! program); reflexivity
    |reflexivity | destruct (Container.refused mc !! program); reflexivity].
Qed.

(** X14.  When the file can be written and the command given can be
    started, the entrypoint replaces whatever [config.js] held by the
    generated text, touches no other file, prints its five lines, and
    hands over to the command. *)
Theorem start_writes_then_hands_over env program args mc :
  Container.config_path ∉ Container.locked mc →
  Container.refused mc !! program = None →
  Container.start env (program :: args) mc
  = Container.Replaced (program :: args)
      (Container.Machine
         (<[Container.config_path := Entrypoint.config_js env]> (Container.files mc))
         (Container.locked mc) (Container.refused mc)
         (Container.printed mc ++ Container.summary env)%list).
Proof.
  intros Hfree Hok. rewrite start_run.
  rewrite decide_False by exact Hfree.
  cbn [Container.step Container.refused]. rewrite Hok. reflexivity.
Qed.

Lemma start_writes_then_hands_over_witness :
  (Container.config_path ∉ Container.locked Sample2.writable)
  ∧ Container.refused Sample2.writable !! "nginx" = None
  ∧ Container.files
      (Container.machine_of
         (Container.start Sample.dev_variables Sample2.nginx Sample2.writable))
    !! Container.config_path
    = Some (Entrypoint.config_js Sample.dev_variables).
Proof.
  assert (Container.config_path ∉ Container.locked Sample2.writable) as Hfree
    by (cbn; set_solver).
  split; [exact Hfree|]. split; [reflexivity|].
  unfold Sample2.nginx.
  rewrite (start_writes_then_hands_over Sample.dev_variables "nginx" _
             Sample2.writable Hfree eq_refl).
  cbn [Container.machine_of Container.files]. apply lookup_insert_eq.
Defined.



(** X19.  When the command given cannot be started, nothing is handed
    over: the shell exits with the status of that failure, after the file
    was generated (if it could be written) and the five lines were
    printed. *)
Theorem start_exits_when_the_command_cannot_start env program args status mc :
  Container.refused mc !! program = Some status →
  Container.start env (program :: args) mc
  = Container.Exited status
      (Container.Machine
         (if decide (Container.config_path ∈ Container.locked mc)
          then Container.files mc
          else <[Container.config_path := Entrypoint.config_js env]>
                 (Container.files mc))
         (Container.locked mc) (Container.refused mc)
         (Container.printed mc ++ Container.summary env)%list).
Proof.
  intros Hno. rewrite start_run.
  cbn [Container.step Container.refused]. rewrite Hno. reflexivity.
Qed.

Lemma start_exits_when_the_command_cannot_start_witness :
  Container.refused Sample2.without_nginx !! "nginx" = Some 127
  ∧ ∃ mc', Container.start Sample.dev_variables Sample2.nginx
             Sample2.without_nginx
           = Container.Exited 127 mc'
           ∧ Container.files mc' !! Container.config_path
             = Some (Entrypoint.config_js Sample.dev_variables).
Proof.
  split; [reflexivity|]. eexists. split.
  - exact (start_exits_when_the_command_cannot_start Sample.dev_variables
             "nginx" _ 127 Sample2.without_nginx eq_refl).
  - cbn [Container.files]. rewrite decide_False by (cbn; set_solver).
    apply lookup_insert_eq.
Defined.
